(** * Modern Westeros game (game.py): parsing and turn logic

    A shallow embedding of the response-parsing and game-state-transition
    code of [game.py]: [parse_stats_impact], [update_stats],
    [check_game_over], [get_story_segment], [make_choice], the state codec
    [get_serializable_state] / [load_state] and the segment slicing done in
    [game_action].

    Python values are modelled as follows.
    - [str] is [string]; a character is a code point below 256 (Latin-1),
      which is what [ascii] holds.  [str.isdigit] and [str.isspace] are the
      Unicode predicates restricted to that range.
    - [int] is [Z] (unbounded, as in Python; only the conversion from text
      is capped, at the interpreter's default of 4300 digits).
    - an exception is a value of [exn]; code that may raise returns
      [result]; code that mutates [self] and may raise lives in the monad
      [M], where a raise keeps the mutations made so far.
    - the session dictionary is a [gmap string pyval].
    - the language model, and the sqlite table of past choices, are outside
      the program: they are the fields of a [World], about which nothing is
      assumed. *)

From Stdlib Require Import ZArith Lia Bool Ascii String List.
From stdpp Require Import base gmap strings.

Import ListNotations.
Local Open Scope string_scope.
Local Open Scope Z_scope.

(** ** Exceptions *)

Inductive exn : Type :=
  | IndexError
  | ValueError
  | KeyError
  | ExternalError.   (* anything raised by the model client or by sqlite *)

Inductive result (A : Type) : Type :=
  | Ok (a : A)
  | Raise (e : exn).

Arguments Ok {A} a.
Arguments Raise {A} e.

Definition rbind {A B} (r : result A) (k : A -> result B) : result B :=
  match r with
  | Ok a => k a
  | Raise e => Raise e
  end.

(** ** Python string primitives *)

Module Py.

Definition code (c : ascii) : N := N_of_ascii c.

(** [c.isdigit()]: the ASCII digits and, in Latin-1, the superscripts
    two, three and one (U+00B2, U+00B3, U+00B9). *)
Definition isdigit (c : ascii) : bool :=
  ((48 <=? code c) && (code c <=? 57))%N
  || (code c =? 178)%N || (code c =? 179)%N || (code c =? 185)%N.

(** The decimal digits, the only ones [int] accepts. *)
Definition isdecimal (c : ascii) : bool :=
  ((48 <=? code c) && (code c <=? 57))%N.

(** [c.isspace()] below 256: TAB..CR, FS..US, SPACE, NEL, NBSP. *)
Definition isspace (c : ascii) : bool :=
  ((9 <=? code c) && (code c <=? 13))%N
  || ((28 <=? code c) && (code c <=? 32))%N
  || (code c =? 133)%N || (code c =? 160)%N.

(** [bool(s)] on a string: non-empty. *)
Definition truthy (s : string) : bool :=
  match s with
  | EmptyString => false
  | String _ _ => true
  end.

(** [s.startswith(p)]. *)
Fixpoint startswith (p s : string) : bool :=
  match p, s with
  | EmptyString, _ => true
  | String a p', String b s' => if ascii_dec a b then startswith p' s' else false
  | String _ _, EmptyString => false
  end.

(** [sub in s]. *)
Fixpoint contains (sub s : string) : bool :=
  startswith sub s ||
  match s with
  | EmptyString => false
  | String _ s' => contains sub s'
  end.

(** The pieces of [s.split(sep)] for a non-empty [sep], scanning left to
    right; [skip] counts the characters of a separator just matched that
    are still to be passed over. *)
Fixpoint split_go (sep s : string) (skip : nat) : list string :=
  match s with
  | EmptyString => [EmptyString]
  | String c s' =>
      match skip with
      | S k => split_go sep s' k
      | O =>
          if startswith sep s
          then EmptyString :: split_go sep s' (Nat.pred (String.length sep))
          else match split_go sep s' O with
               | p :: ps => String c p :: ps
               | [] => [String c EmptyString]
               end
      end
  end.

(** [s.split(sep)]; an empty separator is a [ValueError]. *)
Definition split (s sep : string) : result (list string) :=
  match sep with
  | EmptyString => Raise ValueError
  | String _ _ => Ok (split_go sep s O)
  end.

(** [l[i]] for [i >= 0]. *)
Definition index {A} (l : list A) (i : nat) : result A :=
  match nth_error l i with
  | Some a => Ok a
  | None => Raise IndexError
  end.

(** [s.lstrip()], [s.rstrip()], [s.strip()]. *)
Fixpoint lstrip (s : string) : string :=
  match s with
  | EmptyString => EmptyString
  | String c s' => if isspace c then lstrip s' else s
  end.

Fixpoint rstrip (s : string) : string :=
  match s with
  | EmptyString => EmptyString
  | String c s' =>
      match rstrip s' with
      | EmptyString => if isspace c then EmptyString else String c EmptyString
      | r => String c r
      end
  end.

Definition strip (s : string) : string := rstrip (lstrip s).

(** ["".join(c for c in s if keep c)]. *)
Fixpoint filter_chars (keep : ascii -> bool) (s : string) : string :=
  match s with
  | EmptyString => EmptyString
  | String c s' =>
      if keep c then String c (filter_chars keep s') else filter_chars keep s'
  end.

(** [sep.join(l)]. *)
Fixpoint join (sep : string) (l : list string) : string :=
  match l with
  | [] => EmptyString
  | [x] => x
  | x :: rest => x +:+ sep +:+ join sep rest
  end.

(** *** [int(s)]

    Surrounding whitespace is dropped, then an optional sign, then decimal
    digits in which single underscores may separate digits; the number of
    digits is capped. *)

Definition digit_value (c : ascii) : Z := Z.of_N (code c) - 48.

(** Digits read so far are accumulated in [acc]; [prev] tells whether the
    previous character was a digit (an underscore needs one on each side). *)
Fixpoint digits_go (s : string) (acc : Z) (prev : bool) : option Z :=
  match s with
  | EmptyString => if prev then Some acc else None
  | String c s' =>
      if isdecimal c then digits_go s' (10 * acc + digit_value c) true
      else if (code c =? 95)%N          (* "_" *)
           then (if prev then digits_go s' acc false else None)
           else None
  end.

(** The whitespace [int] drops around the literal: TAB..CR and SPACE, and
    above 127 the Unicode spaces NEL and NBSP.  FS..US, which [isspace]
    accepts, are not dropped. *)
Definition int_space (c : ascii) : bool :=
  ((9 <=? code c) && (code c <=? 13))%N
  || (code c =? 32)%N || (code c =? 133)%N || (code c =? 160)%N.

Fixpoint int_lstrip (s : string) : string :=
  match s with
  | EmptyString => EmptyString
  | String c s' => if int_space c then int_lstrip s' else s
  end.

Fixpoint int_rstrip (s : string) : string :=
  match s with
  | EmptyString => EmptyString
  | String c s' =>
      match int_rstrip s' with
      | EmptyString => if int_space c then EmptyString else String c EmptyString
      | r => String c r
      end
  end.

(** [sys.int_max_str_digits] at its default: a literal with more digits is
    a [ValueError]. *)
Definition int_max_str_digits : N := 4300.

Definition int (s : string) : result Z :=
  let body := int_rstrip (int_lstrip s) in
  let parsed :=
    match body with
    | String c rest =>
        if (code c =? 43)%N then digits_go rest 0 false            (* "+" *)
        else if (code c =? 45)%N then Z.opp <$> digits_go rest 0 false  (* "-" *)
        else digits_go body 0 false
    | EmptyString => None
    end in
  match parsed with
  | Some n =>
      if (int_max_str_digits
          <? N.of_nat (String.length (filter_chars isdecimal body)))%N
      then Raise ValueError
      else Ok n
  | None => Raise ValueError
  end.

(** [s.lstrip(chars)]: leading characters that occur in [chars] are dropped. *)
Fixpoint lstrip_chars (chars s : string) : string :=
  match s with
  | EmptyString => EmptyString
  | String c s' =>
      if contains (String c EmptyString) chars then lstrip_chars chars s' else s
  end.

End Py.

(** ** The error monad and the state-and-error monad *)

#[global] Instance result_ret : MRet result := fun A a => Ok a.
#[global] Instance result_bind : MBind result := fun A B k r => rbind r k.

(** ** Game state *)

Record Game : Type := mkGame {
  player_history : list string;
  happiness : Z;
  wealth : Z;
  turn_count : Z;
  game_id : string
}.

(** [__init__]: the fields a fresh game starts with; [gid] stands for
    [os.urandom(16).hex()]. *)
Definition new_game (gid : string) : Game :=
  {| player_history := [];
     happiness := 30;
     wealth := 100000;
     turn_count := 0;
     game_id := gid |}.

(** Code that reads and writes [self] and may raise.  The state that comes
    back with a [Raise] is the state at the moment of the raise. *)
Definition M (A : Type) : Type := Game -> Game * result A.

#[global] Instance M_ret : MRet M := fun A a st => (st, Ok a).
#[global] Instance M_bind : MBind M := fun A B k m st =>
  match m st with
  | (st', Ok a) => k a st'
  | (st', Raise e) => (st', Raise e)
  end.

Definition get : M Game := fun st => (st, Ok st).
Definition raise {A} (e : exn) : M A := fun st => (st, Raise e).
Definition lift {A} (r : result A) : M A := fun st => (st, r).

(** [try: m except Exception as e: h e]. *)
Definition try_M {A} (m : M A) (h : exn -> M A) : M A := fun st =>
  match m st with
  | (st', Ok a) => (st', Ok a)
  | (st', Raise e) => h e st'
  end.

Definition try_result {A} (r : result A) (h : exn -> result A) : result A :=
  match r with
  | Ok a => Ok a
  | Raise e => h e
  end.

(** Field assignments [self.f = v]. *)
Definition set_player_history (v : list string) : M unit := fun st =>
  ({| player_history := v; happiness := happiness st; wealth := wealth st;
      turn_count := turn_count st; game_id := game_id st |}, Ok tt).
Definition set_happiness (v : Z) : M unit := fun st =>
  ({| player_history := player_history st; happiness := v; wealth := wealth st;
      turn_count := turn_count st; game_id := game_id st |}, Ok tt).
Definition set_wealth (v : Z) : M unit := fun st =>
  ({| player_history := player_history st; happiness := happiness st; wealth := v;
      turn_count := turn_count st; game_id := game_id st |}, Ok tt).
Definition set_turn_count (v : Z) : M unit := fun st =>
  ({| player_history := player_history st; happiness := happiness st;
      wealth := wealth st; turn_count := v; game_id := game_id st |}, Ok tt).
Definition set_game_id (v : string) : M unit := fun st =>
  ({| player_history := player_history st; happiness := happiness st;
      wealth := wealth st; turn_count := turn_count st; game_id := v |}, Ok tt).

(** ** [format_history] *)

Definition format_history (st : Game) : string :=
  match player_history st with
  | [] => "No previous choices."
  | h => Py.join " Then " h
  end.

(** ** [parse_stats_impact] *)

(** A character as a string of length one. *)
Definition char (c : ascii) : string := String c EmptyString.

(** [c.isdigit() or c in "+-"]. *)
Definition impact_char (c : ascii) : bool :=
  Py.isdigit c || Py.contains (char c) "+-".

(** The nested [extract_number]. *)
Definition extract_number (impact_str : string) : result Z :=
  Py.int (Py.filter_chars impact_char impact_str).

(** [choice.split("(")[1].split(")")[0].split(",")]. *)
Definition impacts_of (choice : string) : result (list string) :=
  p ← Py.split choice "(";
  a ← Py.index p 1;
  q ← Py.split a ")";
  b ← Py.index q 0;
  Py.split b ",".

(** The body of the [try]. *)
Definition parse_stats_impact_body (choice : string) : result (Z * Z) :=
  if negb (Py.contains "(" choice) || negb (Py.contains ")" choice)
  then Ok (0, 0)
  else
    impacts ← impacts_of choice;
    if (length impacts <? 2)%nat
    then Ok (0, 0)
    else
      i0 ← Py.index impacts 0;
      happiness_impact ← extract_number i0;
      i1 ← Py.index impacts 1;
      wealth_impact ← extract_number i1;
      Ok (happiness_impact, wealth_impact).

Definition parse_stats_impact (choice : string) : result (Z * Z) :=
  try_result (parse_stats_impact_body choice) (fun _ => Ok (0, 0)).

(** ** [update_stats] *)

(** Lines 167-168: the two clamped assignments, for impacts already parsed. *)
Definition apply_impact (happiness_impact wealth_impact : Z) : M unit :=
  st ← get;
  set_happiness (Z.max 0 (Z.min 100 (happiness st + happiness_impact)));;
  st ← get;
  set_wealth (Z.max 0 (wealth st + wealth_impact)).

Definition update_stats (choice_text : string) : M (Z * Z) :=
  '(happiness_impact, wealth_impact) ← lift (parse_stats_impact choice_text);
  apply_impact happiness_impact wealth_impact;;
  mret (happiness_impact, wealth_impact).

(** [clamp x lo hi] as the specification words it, to compare with the
    nested [max]/[min] of the code. *)
Definition clamp (x lo hi : Z) : Z :=
  if x <? lo then lo else if hi <? x then hi else x.

(** ** [check_game_over] *)

Definition msg_happiness_zero : string :=
  "Game Over! Your happiness has reached zero. The night is dark and full of terrors.".
Definition msg_broke : string :=
  "Game Over! You've gone broke. Even the Iron Bank won't help you now.".
Definition msg_victory : string :=
  "Victory! You've achieved both wealth and happiness. The North remembers your success!".
Definition msg_turn_limit : string :=
  "Game Over! You've completed your journey, but haven't reached greatness.".

Definition check_game_over (st : Game) : bool * string :=
  if happiness st <=? 0 then (true, msg_happiness_zero)
  else if wealth st <=? 0 then (true, msg_broke)
  else if (happiness st >=? 80) && (wealth st >=? 150000) then (true, msg_victory)
  else if turn_count st >=? 10 then (true, msg_turn_limit)
  else (false, "").

(** ** [get_serializable_state] and [load_state] *)

(** The values a state dictionary holds. *)
Inductive pyval : Type :=
  | PyInt (n : Z)
  | PyStr (s : string)
  | PyList (l : list string).

Definition get_serializable_state (st : Game) : gmap string pyval :=
  <["player_history" := PyList (player_history st)]>
  (<["happiness" := PyInt (happiness st)]>
  (<["wealth" := PyInt (wealth st)]>
  (<["turn_count" := PyInt (turn_count st)]>
  (<["game_id" := PyStr (game_id st)]> ∅)))).

(** [state[key]]. *)
Definition getitem (state : gmap string pyval) (key : string) : result pyval :=
  match state !! key with
  | Some v => Ok v
  | None => Raise KeyError
  end.

(** Python stores whatever the dictionary holds; the typed record [Game] can
    only hold a value of the field's type, so a value of another shape ends
    the modelled run with [IllTyped] (which is no Python exception). *)
Inductive load_outcome : Type :=
  | Loaded (st : Game)
  | LoadRaised (st : Game) (e : exn)
  | IllTyped.

Definition load_state (state : gmap string pyval) (self : Game) : load_outcome :=
  match getitem state "player_history" with
  | Raise e => LoadRaised self e
  | Ok (PyList h) =>
      let self := fst (set_player_history h self) in
      match getitem state "happiness" with
      | Raise e => LoadRaised self e
      | Ok (PyInt n) =>
          let self := fst (set_happiness n self) in
          match getitem state "wealth" with
          | Raise e => LoadRaised self e
          | Ok (PyInt n) =>
              let self := fst (set_wealth n self) in
              match getitem state "turn_count" with
              | Raise e => LoadRaised self e
              | Ok (PyInt n) =>
                  let self := fst (set_turn_count n self) in
                  match getitem state "game_id" with
                  | Raise e => LoadRaised self e
                  | Ok (PyStr s) => Loaded (fst (set_game_id s self))
                  | Ok _ => IllTyped
                  end
              | Ok _ => IllTyped
              end
          | Ok _ => IllTyped
          end
      | Ok _ => IllTyped
      end
  | Ok _ => IllTyped
  end.

(** ** The collaborators: model client and choice table

    [consequence_chain.invoke] and [story_chain.invoke] return text or raise;
    so do the two sqlite routines.  One call of [make_choice] consults each
    of them at most once, so a function of the arguments of the call says
    all that a reply can depend on.  The list of previous choices is handed
    to [story_chain] as it is, in place of its JSON text. *)

Record World : Type := mkWorld {
  (* store_choice: INSERT of (choice_text, game_id) *)
  db_insert : string -> string -> result unit;
  (* get_previous_choices: SELECT for a game_id *)
  db_select : string -> result (list string);
  (* history, choice, happiness, wealth *)
  consequence_chain : string -> string -> Z -> Z -> result string;
  (* history, current_situation, happiness, wealth, previous_choices *)
  story_chain : string -> string -> Z -> Z -> list string -> result string
}.

Definition fallback_consequence : string :=
  "The outcome of your choice was unclear...".
Definition recovery_situation : string :=
  "Jon needs to reassess his options...".
Definition error_segment : string :=
  "Error generating story segment.".

Section Engine.

Variable w : World.

Definition store_choice (choice_text : string) : M unit :=
  st ← get;
  lift (db_insert w choice_text (game_id st)).

Definition get_previous_choices : M (list string) :=
  st ← get;
  lift (db_select w (game_id st)).

Definition get_story_segment (current_situation : string) : M string :=
  try_M
    (previous_choices ← get_previous_choices;
     st ← get;
     response ← lift (story_chain w (format_history st) current_situation
                        (happiness st) (wealth st) previous_choices);
     mret response)
    (fun _ => mret error_segment).

(** [not choice_text or len(choice_text.strip()) == 0]. *)
Definition empty_choice (choice_text : string) : bool :=
  negb (Py.truthy choice_text)
  || (String.length (Py.strip choice_text) =? 0)%nat.

Definition make_choice (choice_text : string) : M (string * string) :=
  try_M
    (st ← get;
     set_turn_count (turn_count st + 1);;
     (if empty_choice choice_text then raise ValueError else mret tt);;
     store_choice choice_text;;
     update_stats choice_text;;
     st ← get;
     consequence ← lift (consequence_chain w (format_history st) choice_text
                           (happiness st) (wealth st));
     st ← get;
     set_player_history (player_history st ++ [choice_text]);;
     next ← get_story_segment consequence;
     mret (consequence, next))
    (fun _ =>
       next ← get_story_segment recovery_situation;
       mret (fallback_consequence, next)).

End Engine.

(** ** Segment slicing in [game_action] (lines 271-280 and 310-315) *)

Definition newline : string := String (ascii_of_nat 10) EmptyString.

(** [segment.split("STORY:")[1].split("CHOICES:")[0].strip()]. *)
Definition segment_story (segment : string) : result string :=
  p ← Py.split segment "STORY:";
  a ← Py.index p 1;
  q ← Py.split a "CHOICES:";
  b ← Py.index q 0;
  mret (Py.strip b).

(** [[c.strip() for c in segment.split("CHOICES:\n")[1].split("\n")
      if c.strip()][:3]]. *)
Definition segment_choices (segment : string) : result (list string) :=
  p ← Py.split segment ("CHOICES:" +:+ newline);
  a ← Py.index p 1;
  lines ← Py.split a newline;
  mret (firstn 3 (map Py.strip
                    (List.filter (fun c => Py.truthy (Py.strip c)) lines))).

(** The two entries of the response dictionary, in the order the dictionary
    display evaluates them. *)
Definition parse_segment (segment : string) : result (string * list string) :=
  story ← segment_story segment;
  choices ← segment_choices segment;
  mret (story, choices).

(** ** Vocabulary of the specification and sample collaborators *)

(** "Empty or whitespace-only", character by character. *)
Fixpoint whitespace_only (s : string) : bool :=
  match s with
  | EmptyString => true
  | String c s' => Py.isspace c && whitespace_only s'
  end.

(** A segment is actionable when [game_action] can slice it. *)
Definition actionable (segment : string) : Prop :=
  exists story choices, parse_segment segment = Ok (story, choices).

Definition sample_segment : string :=
  "STORY: Foo." +:+ newline +:+ "CHOICES:" +:+ newline
  +:+ "1. A (Happiness: +1, Wealth: +2)" +:+ newline
  +:+ "2. B (Happiness: +3, Wealth: -4)" +:+ newline
  +:+ "3. C (Happiness: -5, Wealth: +6)".

(** The states a turn passes through: the turn counted; then the stats
    updated; then the choice appended to the history. *)
Definition spent (st : Game) : Game :=
  mkGame (player_history st) (happiness st) (wealth st)
         (turn_count st + 1) (game_id st).

Definition impacted (dh dw : Z) (st : Game) : Game :=
  mkGame (player_history st)
         (Z.max 0 (Z.min 100 (happiness st + dh)))
         (Z.max 0 (wealth st + dw))
         (turn_count st + 1) (game_id st).

Definition recorded (choice_text : string) (dh dw : Z) (st : Game) : Game :=
  mkGame (player_history st ++ [choice_text])
         (Z.max 0 (Z.min 100 (happiness st + dh)))
         (Z.max 0 (wealth st + dw))
         (turn_count st + 1) (game_id st).

(** Everything answers. *)
Definition world_up : World :=
  {| db_insert := fun _ _ => Ok tt;
     db_select := fun _ => Ok [];
     consequence_chain := fun _ _ _ _ => Ok "The Iron Bank approves.";
     story_chain := fun _ _ _ _ _ => Ok sample_segment |}.

(** The consequence call fails, the story call answers. *)
Definition world_consequence_down : World :=
  {| db_insert := fun _ _ => Ok tt;
     db_select := fun _ => Ok [];
     consequence_chain := fun _ _ _ _ => Raise ExternalError;
     story_chain := fun _ _ _ _ _ => Ok sample_segment |}.

(** The consequence call answers, the story call fails. *)
Definition world_story_down : World :=
  {| db_insert := fun _ _ => Ok tt;
     db_select := fun _ => Ok [];
     consequence_chain := fun _ _ _ _ => Ok "The Iron Bank approves.";
     story_chain := fun _ _ _ _ _ => Raise ExternalError |}.

Definition bran_choice : string :=
  "Consult with Bran (Happiness: +10, Wealth: +25000)".

(** ** [start_game] *)

Definition initial_situation : string :=
  "Jon Snow, having left the Night's Watch for a new life in modern-day real estate, "
  +:+ "stands before the gleaming Glass Tower in downtown King's Landing (formerly Manhattan). "
  +:+ "His father's words echo in his head: 'Winter is Coming... and so is the housing market crash.'".

Definition start_game (w : World) : M string :=
  get_story_segment w initial_situation.

(** ** [__init__]

    What the constructor reads from its surroundings: the environment
    variable, the construction of the model client, the random bytes of the
    game id and the creation of the table. *)

Record Host : Type := mkHost {
  world : World;
  api_key : option string;      (* os.getenv("OPENAI_API_KEY") *)
  llm_init : result unit;       (* OpenAI(temperature=0.8) *)
  fresh_id : string;            (* os.urandom(16).hex() *)
  db_setup : result unit        (* setup_database *)
}.

Definition init (h : Host) : result Game :=
  match api_key h with
  | None => Raise ValueError
  | Some key =>
      if negb (Py.truthy key) then Raise ValueError
      else
        _ ← llm_init h;
        _ ← db_setup h;
        Ok (new_game (fresh_id h))
  end.

(** ** The route [game_action]

    The Flask session holds two entries, written together.  What the
    session holds when the handler returns is what the next request finds,
    also when the handler returns through its [except] branch. *)

Record Session : Type := mkSession {
  game_state : option (gmap string pyval);
  current_segment : option string
}.

(** The value of [data.get("choice")]. *)
Inductive req_choice : Type :=
  | Absent                 (* no such key, null, or another falsy value *)
  | Text (s : string)      (* a string *)
  | Other.                 (* a truthy value that is not a string *)

(** The ["game_state"] object of a success response; the new-game response
    has no consequence and no game-over entries. *)
Record game_view : Type := mkView {
  turn : Z;
  view_happiness : Z;
  view_wealth : Z;
  view_consequence : option string;
  view_story : string;
  view_choices : list string;
  is_game_over : option bool;
  game_over_message : option string
}.

Inductive response : Type :=
  | Success (v : game_view)          (* 200 *)
  | InvalidChoice                    (* 400, "Invalid choice" *)
  | ServerError (e : exn)            (* 500, message str(e) *)
  | OutsideModel.                    (* load_state met a value of another shape *)

(** Handler code: reads and writes the session and may raise. *)
Definition SessionM (A : Type) : Type := Session -> Session * result A.

#[global] Instance SessionM_ret : MRet SessionM := fun A a s => (s, Ok a).
#[global] Instance SessionM_bind : MBind SessionM := fun A B k m s =>
  match m s with
  | (s', Ok a) => k a s'
  | (s', Raise e) => (s', Raise e)
  end.

Definition lift_session {A} (r : result A) : SessionM A := fun s => (s, r).

(** [session["game_state"]] and [session["current_segment"]]. *)
Definition session_game_state : SessionM (gmap string pyval) := fun s =>
  (s, match game_state s with Some d => Ok d | None => Raise KeyError end).
Definition session_current_segment : SessionM string := fun s =>
  (s, match current_segment s with Some t => Ok t | None => Raise KeyError end).

Definition set_session_game_state (d : gmap string pyval) : SessionM unit :=
  fun s => (mkSession (Some d) (current_segment s), Ok tt).
Definition set_session_current_segment (t : string) : SessionM unit :=
  fun s => (mkSession (game_state s) (Some t), Ok tt).

(** A method call on the local object [game]. *)
Definition call {A} (m : M A) (game : Game) : SessionM (Game * A) := fun s =>
  match m game with
  | (game', Ok a) => (s, Ok (game', a))
  | (_, Raise e) => (s, Raise e)
  end.

(** [not choice]. *)
Definition choice_falsy (choice : req_choice) : bool :=
  match choice with
  | Absent => true
  | Text s => negb (Py.truthy s)
  | Other => false
  end.

(** [choice in ["1", "2", "3"]]. *)
Definition choice_listed (choice : req_choice) : bool :=
  match choice with
  | Text s => bool_decide (s ∈ ["1"; "2"; "3"])
  | _ => false
  end.

Definition new_game_action (h : Host) : SessionM response :=
  game ← lift_session (init h);
  '(game, segment) ← call (start_game (world h)) game;
  set_session_game_state (get_serializable_state game);;
  set_session_current_segment segment;;
  story ← lift_session (segment_story segment);
  choices ← lift_session (segment_choices segment);
  mret (Success {| turn := turn_count game + 1;
                   view_happiness := happiness game;
                   view_wealth := wealth game;
                   view_consequence := None;
                   view_story := story;
                   view_choices := choices;
                   is_game_over := None;
                   game_over_message := None |}).

Definition choice_action (h : Host) (choice : string) : SessionM response :=
  fresh ← lift_session (init h);
  state ← session_game_state;
  match load_state state fresh with
  | IllTyped => mret OutsideModel
  | LoadRaised _ e => lift_session (Raise e)
  | Loaded game =>
      segment ← session_current_segment;
      p ← lift_session (Py.split segment ("CHOICES:" +:+ newline));
      block ← lift_session (Py.index p 1);
      choices ← lift_session (Py.split block newline);
      n ← lift_session (Py.int choice);
      (* [n] is 1, 2 or 3 here, so the index is not negative *)
      line ← lift_session (Py.index choices (Z.to_nat (n - 1)));
      let chosen_action := Py.lstrip_chars "123. " line in
      '(game, (consequence, next_segment)) ←
        call (make_choice (world h) chosen_action) game;
      set_session_game_state (get_serializable_state game);;
      set_session_current_segment next_segment;;
      let '(over, message) := check_game_over game in
      story ← lift_session (segment_story next_segment);
      choices ← lift_session (segment_choices next_segment);
      mret (Success {| turn := turn_count game + 1;
                       view_happiness := happiness game;
                       view_wealth := wealth game;
                       view_consequence := Some consequence;
                       view_story := story;
                       view_choices := choices;
                       is_game_over := Some over;
                       game_over_message := if over then Some message else None |})
  end.

(** What lines 253-254 make of the request: the value of
    [data.get("choice")], or the exception raised on the way, by
    [request.get_json()] for a body that cannot be read as JSON or by
    [data.get] for a JSON value that is truthy and no object. *)
Inductive request : Type :=
  | Parsed (choice : req_choice)
  | Unreadable (e : exn).

Definition read_choice (req : request) : result req_choice :=
  match req with
  | Parsed choice => Ok choice
  | Unreadable e => Raise e
  end.

Definition game_action (h : Host) (req : request) (s : Session)
  : Session * response :=
  let body : SessionM response :=
    choice ← lift_session (read_choice req);
    if choice_falsy choice || negb (bool_decide (is_Some (game_state s)))
    then new_game_action h
    else if negb (choice_listed choice) then mret InvalidChoice
    else match choice with
         | Text c => choice_action h c
         | _ => mret InvalidChoice
         end in
  match body s with
  | (s', Ok r) => (s', r)
  | (s', Raise e) => (s', ServerError e)
  end.

(** [reset_game]: [session.clear()]. *)
Definition reset_game (s : Session) : Session := mkSession None None.

(** ** Several turns in a row, each with the collaborators of its moment *)

Definition play (steps : list (World * string)) (st : Game) : Game :=
  fold_left (fun st step => fst (make_choice (fst step) (snd step) st)) steps st.

(** A session as the handler leaves it: empty, or the dictionary of a game
    with a segment beside it. *)
Definition session_of (st : Game) (segment : string) : Session :=
  mkSession (Some (get_serializable_state st)) (Some segment).

Definition host_up : Host :=
  {| world := world_up; api_key := Some "sk-test"; llm_init := Ok tt;
     fresh_id := "0f"; db_setup := Ok tt |}.

Definition host_story_down : Host :=
  {| world := world_story_down; api_key := Some "sk-test"; llm_init := Ok tt;
     fresh_id := "0f"; db_setup := Ok tt |}.

(** * Checks of the embedding on concrete inputs *)

Example split_paren : Py.split "a (b) c" "(" = Ok ["a "; "b) c"].
Proof. reflexivity. Qed.

Example split_marker :
  Py.split "xSTORY:ySTORY:" "STORY:" = Ok ["x"; "y"; ""].
Proof. reflexivity. Qed.

Example split_overlap : Py.split "aaa" "aa" = Ok [""; "a"].
Proof. reflexivity. Qed.

Example int_plus20 : Py.int "+20" = Ok 20.
Proof. reflexivity. Qed.

Example int_minus : Py.int "-50000" = Ok (-50000).
Proof. reflexivity. Qed.

Example int_two_signs : Py.int "+-5" = Raise ValueError.
Proof. reflexivity. Qed.

Example int_empty : Py.int "" = Raise ValueError.
Proof. reflexivity. Qed.

Example int_underscore : Py.int " 1_000 " = Ok 1000.
Proof. reflexivity. Qed.

Example int_nbsp : Py.int (String (ascii_of_nat 160) "5") = Ok 5.
Proof. reflexivity. Qed.

Example int_file_separator :
  Py.isspace (ascii_of_nat 28) = true /\
  Py.int (String (ascii_of_nat 28) "5") = Raise ValueError.
Proof. split; reflexivity. Qed.

Example int_digit_cap :
  (exists n, Py.int (string_of_list_ascii (repeat "1"%char 4300)) = Ok n) /\
  Py.int (string_of_list_ascii (repeat "1"%char 4301)) = Raise ValueError.
Proof. split; [eexists|]; vm_compute; reflexivity. Qed.

Example strip_both : Py.strip "  Foo. " = "Foo.".
Proof. reflexivity. Qed.

Example parse_template_choice :
  parse_stats_impact
    "Act like a Dothraki: Take what is yours with fire and blood (Happiness: +20, Wealth: -50000)"
  = Ok (20, -50000).
Proof. reflexivity. Qed.

Example parse_one_token : parse_stats_impact "Loan (Wealth: +40000)" = Ok (0, 0).
Proof. reflexivity. Qed.

Example parse_no_parens : parse_stats_impact "no parentheses here" = Ok (0, 0).
Proof. reflexivity. Qed.

Example parse_two_signs :
  parse_stats_impact "Hedge (Happiness: +-20, Wealth: +5)" = Ok (0, 0).
Proof. reflexivity. Qed.

Example parse_label_hyphen :
  parse_stats_impact "Sell (Well-being: +20, Wealth: +5)" = Ok (0, 0).
Proof. reflexivity. Qed.

Example parse_close_before_open :
  parse_stats_impact "a ) b ( 1, 2" = Ok (1, 2).
Proof. reflexivity. Qed.

Example parse_digit_cap :
  parse_stats_impact
    ("(+1, +" +:+ string_of_list_ascii (repeat "9"%char 4301) +:+ ")")
  = Ok (0, 0).
Proof. vm_compute. reflexivity. Qed.

Example parse_second_open :
  parse_stats_impact "(a (1,2)" = Ok (0, 0).
Proof. reflexivity. Qed.

Example story_of_sample :
  parse_segment sample_segment
  = Ok ("Foo.", ["1. A (Happiness: +1, Wealth: +2)";
                 "2. B (Happiness: +3, Wealth: -4)";
                 "3. C (Happiness: -5, Wealth: +6)"]).
Proof. reflexivity. Qed.

Example error_segment_unparsable : parse_segment error_segment = Raise IndexError.
Proof. reflexivity. Qed.

Example choices_marker_without_newline :
  parse_segment "STORY: Foo. CHOICES: 1. A" = Raise IndexError.
Proof. reflexivity. Qed.

Example turn_bran :
  make_choice world_up bran_choice (new_game "g")
  = (mkGame [bran_choice] 40 125000 1 "g",
     Ok ("The Iron Bank approves.", sample_segment))
  /\ check_game_over (mkGame [bran_choice] 40 125000 1 "g") = (false, "").
Proof. split; reflexivity. Qed.

Example turn_broke :
  let dothraki := "Fire and blood (Happiness: +20, Wealth: -50000)" in
  let st1 := fst (make_choice world_up dothraki (new_game "g")) in
  let st2 := fst (make_choice world_up dothraki st1) in
  wealth st1 = 50000 /\ wealth st2 = 0 /\
  check_game_over st1 = (false, "") /\
  check_game_over st2 = (true, msg_broke).
Proof. repeat split; reflexivity. Qed.

Example blank_after_numbering : empty_choice " " = true.
Proof. reflexivity. Qed.

(** * Lemmas on the string primitives *)

Lemma startswith_app_l p q s :
  Py.startswith (p +:+ q) s = true -> Py.startswith p s = true.
Proof.
  revert s; induction p as [|a p IH]; intros s H; [reflexivity|].
  destruct s as [|b s]; simpl in *; [discriminate|].
  destruct (ascii_dec a b); [auto | discriminate].
Qed.

Lemma contains_app_l p q s :
  Py.contains (p +:+ q) s = true -> Py.contains p s = true.
Proof.
  induction s as [|c s IH]; simpl; intros H.
  - apply orb_true_iff in H as [H|H]; [|discriminate].
    apply startswith_app_l in H. now rewrite H.
  - apply orb_true_iff in H as [H|H].
    + apply startswith_app_l in H. now rewrite H.
    + rewrite (IH H). apply orb_true_r.
Qed.

Lemma contains_cons_false sub c s :
  Py.contains sub (String c s) = false ->
  Py.startswith sub (String c s) = false /\ Py.contains sub s = false.
Proof. simpl. intros H. now apply orb_false_iff in H. Qed.

Lemma split_go_not_nil sep s k : Py.split_go sep s k <> [].
Proof.
  revert k; induction s as [|c s IH]; intros k; simpl; [discriminate|].
  destruct k as [|k]; [|apply IH].
  destruct (Py.startswith sep (String c s)); [discriminate|].
  destruct (Py.split_go sep s 0); discriminate.
Qed.

(** A separator that does not occur leaves the string in one piece. *)
Lemma split_go_absent sep s :
  Py.contains sep s = false -> Py.split_go sep s 0 = [s].
Proof.
  induction s as [|c s IH]; intros H; [reflexivity|].
  apply contains_cons_false in H as [Hs Hc].
  cbn [Py.split_go]. rewrite Hs, (IH Hc). reflexivity.
Qed.

Lemma split_absent sep s :
  sep <> EmptyString -> Py.contains sep s = false -> Py.split s sep = Ok [s].
Proof.
  intros Hsep H. destruct sep; [congruence|].
  unfold Py.split. now rewrite split_go_absent.
Qed.

(** Joining the pieces with the separator gives the string back, so the
    pieces are cut at occurrences of the separator and nothing is lost. *)
Lemma startswith_app sep s :
  Py.startswith sep s = true -> exists rest, s = sep +:+ rest.
Proof.
  revert s; induction sep as [|a sep IH]; intros s H; [now exists s|].
  destruct s as [|b s]; [discriminate H|]. cbn [Py.startswith] in H.
  destruct (ascii_dec a b) as [->|]; [|discriminate H].
  destruct (IH s H) as [rest ->]. now exists rest.
Qed.

Lemma join_cons_char sep c p ps :
  Py.join sep (String c p :: ps) = String c (Py.join sep (p :: ps)).
Proof. destruct ps; reflexivity. Qed.

Lemma split_go_join sep s : forall k pre rest,
  sep <> EmptyString ->
  s = pre +:+ rest -> String.length pre = k ->
  Py.join sep (Py.split_go sep s k) = rest.
Proof.
  induction s as [|c s IH]; intros k pre rest Hsep Hs Hk.
  - destruct pre; [|discriminate Hs]. change (EmptyString = rest) in Hs.
    now subst.
  - destruct k as [|k].
    + destruct pre; [|discriminate Hk]. change (String c s = rest) in Hs.
      subst rest. cbn [Py.split_go].
      destruct (Py.startswith sep (String c s)) eqn:E.
      * destruct (startswith_app _ _ E) as [rest Hrest].
        destruct sep as [|a sep]; [congruence|].
        change (String c s = String a (sep +:+ rest)) in Hrest.
        injection Hrest as -> ->.
        cbn [String.length Nat.pred].
        specialize (IH (String.length sep) sep rest Hsep eq_refl eq_refl).
        destruct (Py.split_go (String a sep) (sep +:+ rest) (String.length sep))
          as [|p ps] eqn:Ego; [now apply split_go_not_nil in Ego|].
        change (Py.join (String a sep) ("" :: p :: ps))
          with (String a (sep +:+ Py.join (String a sep) (p :: ps))).
        now rewrite IH.
      * specialize (IH 0%nat EmptyString s Hsep eq_refl eq_refl).
        destruct (Py.split_go sep s 0) as [|p ps] eqn:Ego;
          [now apply split_go_not_nil in Ego|].
        rewrite join_cons_char. now rewrite IH.
    + destruct pre as [|b pre]; [discriminate Hk|].
      change (String c s = String b (pre +:+ rest)) in Hs.
      injection Hs as -> ->. injection Hk as Hk.
      cbn [Py.split_go]. now apply (IH k pre rest).
Qed.

Lemma split_join s sep pieces :
  Py.split s sep = Ok pieces -> Py.join sep pieces = s.
Proof.
  destruct sep as [|a sep]; [discriminate|]. intros [= <-].
  now apply (split_go_join _ s 0%nat EmptyString s).
Qed.

(** *** Splitting on a single character *)

Lemma startswith_char c d s :
  Py.startswith (char c) (String d s) = if ascii_dec c d then true else false.
Proof. simpl. now destruct (ascii_dec c d). Qed.

Lemma contains_char_here c a b : Py.contains (char c) (a +:+ String c b) = true.
Proof.
  induction a as [|d a IH]; simpl.
  - destruct (ascii_dec c c); [reflexivity | congruence].
  - rewrite IH. apply orb_true_r.
Qed.

Lemma split_go_char_at c a b :
  Py.contains (char c) a = false ->
  Py.split_go (char c) (a +:+ String c b) 0 = a :: Py.split_go (char c) b 0.
Proof.
  induction a as [|d a IH]; intros H.
  - change (EmptyString +:+ String c b) with (String c b).
    cbn [Py.split_go]. rewrite startswith_char.
    destruct (ascii_dec c c); [reflexivity | congruence].
  - apply contains_cons_false in H as [Hs Hc].
    change (String d a +:+ String c b) with (String d (a +:+ String c b)).
    cbn [Py.split_go]. rewrite startswith_char in *.
    destruct (ascii_dec c d); [discriminate|].
    now rewrite (IH Hc).
Qed.

Lemma split_go_char_head c a b :
  Py.contains (char c) a = false ->
  exists p ps ps',
    Py.split_go (char c) b 0 = p :: ps /\
    Py.split_go (char c) (a +:+ b) 0 = (a +:+ p) :: ps'.
Proof.
  induction a as [|d a IH]; intros H.
  - destruct (Py.split_go (char c) b 0) as [|p ps] eqn:E.
    + now apply split_go_not_nil in E.
    + exists p, ps, ps. split; [reflexivity | exact E].
  - apply contains_cons_false in H as [Hs Hc].
    destruct (IH Hc) as (p & ps & ps' & Hb & Hab).
    exists p, ps, ps'. split; [exact Hb|].
    change (String d a +:+ b) with (String d (a +:+ b)).
    cbn [Py.split_go]. rewrite startswith_char in *.
    destruct (ascii_dec c d); [discriminate|].
    now rewrite Hab.
Qed.

(** * Lemmas on the monadic code *)

Ltac run_M :=
  unfold make_choice, get_story_segment, get_previous_choices, store_choice,
    update_stats, apply_impact, try_M, mbind, M_bind, mret, M_ret, get,
    lift, raise, set_player_history, set_happiness, set_wealth,
    set_turn_count, set_game_id;
  cbn.

(** Unfolds one turn down to the calls it makes. *)
Ltac unfold_turn :=
  cbv [make_choice try_M mbind M_bind mret M_ret get lift raise
       set_turn_count store_choice set_player_history].

Lemma parse_stats_impact_total choice :
  exists h w, parse_stats_impact choice = Ok (h, w).
Proof.
  unfold parse_stats_impact, try_result.
  destruct (parse_stats_impact_body choice) as [[h w]|e]; eauto.
Qed.

(** [get_story_segment] leaves [self] alone and always returns text. *)
Lemma get_story_segment_run w situation st :
  get_story_segment w situation st =
  (st, Ok match db_select w (game_id st) with
          | Ok previous =>
              match story_chain w (format_history st) situation
                      (happiness st) (wealth st) previous with
              | Ok response => response
              | Raise _ => error_segment
              end
          | Raise _ => error_segment
          end).
Proof.
  run_M. destruct (db_select w (game_id st)) as [previous|e]; cbn; [|reflexivity].
  destruct (story_chain w _ _ _ _ previous); reflexivity.
Qed.

Lemma update_stats_run choice st dh dw :
  parse_stats_impact choice = Ok (dh, dw) ->
  update_stats choice st =
  ({| player_history := player_history st;
      happiness := Z.max 0 (Z.min 100 (happiness st + dh));
      wealth := Z.max 0 (wealth st + dw);
      turn_count := turn_count st;
      game_id := game_id st |}, Ok (dh, dw)).
Proof. intros H. run_M. rewrite H. reflexivity. Qed.

Lemma whitespace_only_lstrip s : whitespace_only s = true -> Py.lstrip s = EmptyString.
Proof.
  induction s as [|c s IH]; simpl; [reflexivity|].
  intros H. apply andb_true_iff in H as [Hc Hs]. rewrite Hc. auto.
Qed.

Lemma whitespace_only_empty_choice s : whitespace_only s = true -> empty_choice s = true.
Proof.
  intros H. unfold empty_choice, Py.strip.
  rewrite (whitespace_only_lstrip s H). apply orb_true_r.
Qed.

(** * The stat tracker *)

Lemma clamp_max_min x : Z.max 0 (Z.min 100 x) = clamp x 0 100.
Proof.
  unfold clamp.
  destruct (Z.ltb_spec x 0); [lia|].
  destruct (Z.ltb_spec 100 x); lia.
Qed.

(** C1. From a state with [0 <= happiness <= 100] and [wealth >= 0], and for
    any two integer impacts, the assignments of [update_stats] leave
    happiness equal to [clamp (happiness + impact) 0 100], hence within
    0..100, and wealth equal to [max 0 (wealth + impact)], hence not
    negative and with no upper clamp; nothing else changes, and
    [update_stats] on a choice text that parses to these impacts does
    exactly this. *)
Theorem update_stats_clamps (st : Game) (dh dw : Z) :
  0 <= happiness st <= 100 ->
  0 <= wealth st ->
  exists st',
    apply_impact dh dw st = (st', Ok tt) /\
    happiness st' = clamp (happiness st + dh) 0 100 /\
    0 <= happiness st' <= 100 /\
    wealth st' = Z.max 0 (wealth st + dw) /\
    0 <= wealth st' /\
    (0 <= wealth st + dw -> wealth st' = wealth st + dw) /\
    player_history st' = player_history st /\
    turn_count st' = turn_count st /\
    game_id st' = game_id st /\
    (forall choice_text,
        parse_stats_impact choice_text = Ok (dh, dw) ->
        update_stats choice_text st = (st', Ok (dh, dw))).
Proof.
  intros _ _. eexists. split; [run_M; reflexivity|]. cbn.
  repeat split; try lia.
  - apply clamp_max_min.
  - intros choice_text H. now rewrite (update_stats_run _ _ _ _ H).
Qed.

Lemma update_stats_clamps_witness :
  exists st',
    apply_impact (-1000) 5000000 (mkGame [] 5 100000 0 "g") = (st', Ok tt) /\
    happiness st' = 0 /\ wealth st' = 5100000.
Proof.
  destruct (update_stats_clamps (mkGame [] 5 100000 0 "g") (-1000) 5000000)
    as (st' & Hrun & Hh & _ & Hw & _); [cbn; lia | cbn; lia |].
  exists st'. split; [exact Hrun|]. split; [exact Hh | exact Hw].
Defined.

(** * Terminal evaluation *)

(** C2. [check_game_over] tests, in this order, happiness at or below zero,
    wealth at or below zero, the victory thresholds, and the turn limit; the
    first test that holds decides the message.  A state with happiness 0
    and wealth 200000 is a happiness defeat and not a victory. *)
Theorem check_game_over_precedence (st : Game) :
  (happiness st <= 0 -> check_game_over st = (true, msg_happiness_zero)) /\
  (0 < happiness st -> wealth st <= 0 ->
   check_game_over st = (true, msg_broke)) /\
  (0 < happiness st -> 0 < wealth st ->
   80 <= happiness st -> 150000 <= wealth st ->
   check_game_over st = (true, msg_victory)) /\
  (0 < happiness st -> 0 < wealth st ->
   ~ (80 <= happiness st /\ 150000 <= wealth st) ->
   10 <= turn_count st ->
   check_game_over st = (true, msg_turn_limit)) /\
  (0 < happiness st -> 0 < wealth st ->
   ~ (80 <= happiness st /\ 150000 <= wealth st) ->
   turn_count st < 10 ->
   check_game_over st = (false, EmptyString)) /\
  (happiness st = 0 -> wealth st = 200000 ->
   check_game_over st = (true, msg_happiness_zero) /\
   check_game_over st <> (true, msg_victory)).
Proof.
  unfold check_game_over.
  destruct (Z.leb_spec (happiness st) 0) as [Hh|Hh];
  destruct (Z.leb_spec (wealth st) 0) as [Hw|Hw];
  destruct (Z.geb_spec (happiness st) 80) as [Hh8|Hh8];
  destruct (Z.geb_spec (wealth st) 150000) as [Hw1|Hw1];
  destruct (Z.geb_spec (turn_count st) 10) as [Ht|Ht];
  cbn [andb]; repeat split; intros; try reflexivity; try lia; try discriminate.
Qed.

Lemma check_game_over_precedence_witness :
  check_game_over (mkGame [] 0 200000 3 "g") = (true, msg_happiness_zero) /\
  check_game_over (mkGame [] 0 200000 3 "g") <> (true, msg_victory).
Proof.
  destruct (check_game_over_precedence (mkGame [] 0 200000 3 "g"))
    as (_ & _ & _ & _ & _ & H).
  apply H; reflexivity.
Defined.

(** * The state codec *)

(** C9. Loading the dictionary made by [get_serializable_state] gives back
    the state it was made from, whatever the object loaded into held
    before; the dictionary has the five keys and each holds its field. *)
Theorem load_state_get_serializable_state (st self : Game) :
  load_state (get_serializable_state st) self = Loaded st /\
  size (get_serializable_state st) = 5%nat /\
  getitem (get_serializable_state st) "player_history" = Ok (PyList (player_history st)) /\
  getitem (get_serializable_state st) "happiness" = Ok (PyInt (happiness st)) /\
  getitem (get_serializable_state st) "wealth" = Ok (PyInt (wealth st)) /\
  getitem (get_serializable_state st) "turn_count" = Ok (PyInt (turn_count st)) /\
  getitem (get_serializable_state st) "game_id" = Ok (PyStr (game_id st)).
Proof.
  assert (Hh : getitem (get_serializable_state st) "player_history"
               = Ok (PyList (player_history st))).
  { unfold getitem, get_serializable_state. now simplify_map_eq. }
  assert (Hp : getitem (get_serializable_state st) "happiness"
               = Ok (PyInt (happiness st))).
  { unfold getitem, get_serializable_state. now simplify_map_eq. }
  assert (Hw : getitem (get_serializable_state st) "wealth"
               = Ok (PyInt (wealth st))).
  { unfold getitem, get_serializable_state. now simplify_map_eq. }
  assert (Ht : getitem (get_serializable_state st) "turn_count"
               = Ok (PyInt (turn_count st))).
  { unfold getitem, get_serializable_state. now simplify_map_eq. }
  assert (Hg : getitem (get_serializable_state st) "game_id"
               = Ok (PyStr (game_id st))).
  { unfold getitem, get_serializable_state. now simplify_map_eq. }
  split; [|split; [|tauto]].
  - unfold load_state. rewrite Hh, Hp, Hw, Ht, Hg. cbn. now destruct st.
  - unfold get_serializable_state.
    repeat (rewrite map_size_insert_None; [|now simplify_map_eq]).
    now rewrite map_size_empty.
Qed.

(** * The impact parser *)

Lemma contains_app_r sub a b :
  Py.contains sub b = true -> Py.contains sub (a +:+ b) = true.
Proof.
  intros H. induction a as [|c a IH]; [exact H|].
  change (String c a +:+ b) with (String c (a +:+ b)).
  cbn [Py.contains]. rewrite IH. apply orb_true_r.
Qed.

(** With no second ["("] before the first [")"] that follows the first
    ["("], the slicing isolates the text between the two. *)
Lemma impacts_of_annotation pre mid post :
  Py.contains "(" pre = false ->
  Py.contains "(" mid = false ->
  Py.contains ")" mid = false ->
  impacts_of (pre +:+ "(" +:+ mid +:+ ")" +:+ post) = Py.split mid ",".
Proof.
  intros Hpre Hmid1 Hmid2. unfold impacts_of.
  change (Py.split (pre +:+ "(" +:+ mid +:+ ")" +:+ post) "(")
    with (Ok (Py.split_go (char "(") (pre +:+ String "(" (mid +:+ String ")" post)) 0)).
  rewrite (split_go_char_at "(" pre _ Hpre).
  destruct (split_go_char_head "(" mid (String ")" post) Hmid1)
    as (p & ps & ps' & Hb & Hab).
  rewrite Hab. cbn [mbind result_bind rbind Py.index nth_error].
  cbn [Py.split_go] in Hb. rewrite startswith_char in Hb.
  destruct (ascii_dec "(" ")") as [Heq|_]; [discriminate Heq|].
  destruct (Py.split_go (char "(") post 0) as [|p' ps0] eqn:E;
    [now apply split_go_not_nil in E|].
  injection Hb as <- _.
  change (Py.split (mid +:+ String ")" p') ")")
    with (Ok (Py.split_go (char ")") (mid +:+ String ")" p') 0)).
  rewrite (split_go_char_at ")" mid _ Hmid2). reflexivity.
Qed.

(** C3, amended.  Let [choice] read [pre ( mid ) post], where [pre] has no
    ["("] and [mid] has neither ["("] nor [")"]: the first ["("], the first
    [")"] after it, and no further ["("] between the two.  If [mid] splits
    on [","] into at least two tokens and the digit and sign characters of
    each of the first two make an integer literal, then
    [parse_stats_impact] returns the first value as the happiness impact and
    the second as the wealth impact. *)
Theorem parse_stats_impact_annotation
    (choice pre mid post t0 t1 : string) (rest : list string) (h w : Z) :
  choice = pre +:+ "(" +:+ mid +:+ ")" +:+ post ->
  Py.contains "(" pre = false ->
  Py.contains "(" mid = false ->
  Py.contains ")" mid = false ->
  Py.split mid "," = Ok (t0 :: t1 :: rest) ->
  extract_number t0 = Ok h ->
  extract_number t1 = Ok w ->
  parse_stats_impact choice = Ok (h, w).
Proof.
  intros -> Hpre Hmid1 Hmid2 Hsplit H0 H1.
  unfold parse_stats_impact, parse_stats_impact_body.
  change (pre +:+ "(" +:+ mid +:+ ")" +:+ post)
    with (pre +:+ String "(" (mid +:+ String ")" post)) at 1.
  rewrite (contains_char_here "(" pre).
  assert (Hclose : Py.contains ")" (pre +:+ "(" +:+ mid +:+ ")" +:+ post) = true).
  { apply contains_app_r. apply (contains_app_r _ "(").
    apply (contains_char_here ")" mid post). }
  rewrite Hclose. cbn [negb orb].
  rewrite (impacts_of_annotation pre mid post Hpre Hmid1 Hmid2), Hsplit.
  cbn. rewrite H0. cbn. rewrite H1. reflexivity.
Qed.

Lemma parse_stats_impact_annotation_witness :
  parse_stats_impact "Act like a Dothraki (Happiness: +20, Wealth: -50000)"
  = Ok (20, -50000).
Proof.
  apply (parse_stats_impact_annotation _
           "Act like a Dothraki " "Happiness: +20, Wealth: -50000" ""
           "Happiness: +20" " Wealth: -50000" []); reflexivity.
Defined.

(** C3 as stated fails: in ["(a (1,2)"] the text between the first ["("]
    and the first [")"] after it is ["a (1,2"], whose two tokens reduce to
    1 and 2, yet the parser, which cuts at the second ["("], finds one token
    and returns the default. *)
Lemma parse_stats_impact_second_open_paren :
  ~ (forall (choice pre mid post t0 t1 : string) (rest : list string) (h w : Z),
        choice = pre +:+ "(" +:+ mid +:+ ")" +:+ post ->
        Py.contains "(" pre = false ->
        Py.contains ")" mid = false ->
        Py.split mid "," = Ok (t0 :: t1 :: rest) ->
        extract_number t0 = Ok h ->
        extract_number t1 = Ok w ->
        parse_stats_impact choice = Ok (h, w)).
Proof.
  intros H.
  specialize (H "(a (1,2)" "" "a (1,2" "" "a (1" "2" [] 1 2
                eq_refl eq_refl eq_refl eq_refl eq_refl eq_refl).
  discriminate H.
Qed.

(** C4, amended.  [parse_stats_impact] returns a pair on every string: no
    exception leaves it.  The pair is the default [(0, 0)] when the text has
    no ["("] or no [")"].  When the text reads [pre ( mid ) post], with [mid]
    the text between the first ["("] and the first [")"] after it and no
    further ["("] in it, the pair is the default as well when [mid] splits
    on [","] into fewer than two tokens, and when the digit and sign
    characters of the first or of the second token are not an integer
    literal. *)
Theorem parse_stats_impact_never_raises (choice : string) :
  (exists h w, parse_stats_impact choice = Ok (h, w)) /\
  (Py.contains "(" choice = false \/ Py.contains ")" choice = false ->
   parse_stats_impact choice = Ok (0, 0)) /\
  (forall pre mid post,
      choice = pre +:+ "(" +:+ mid +:+ ")" +:+ post ->
      Py.contains "(" pre = false ->
      Py.contains "(" mid = false ->
      Py.contains ")" mid = false ->
      (forall tokens,
          Py.split mid "," = Ok tokens -> (length tokens < 2)%nat ->
          parse_stats_impact choice = Ok (0, 0)) /\
      (forall t0 t1 rest e,
          Py.split mid "," = Ok (t0 :: t1 :: rest) ->
          extract_number t0 = Raise e \/ extract_number t1 = Raise e ->
          parse_stats_impact choice = Ok (0, 0))).
Proof.
  split; [apply parse_stats_impact_total|].
  split.
  { unfold parse_stats_impact, parse_stats_impact_body.
    intros [-> | ->]; [reflexivity|]. now rewrite orb_true_r. }
  intros pre mid post -> Hpre Hmid1 Hmid2.
  unfold parse_stats_impact, parse_stats_impact_body.
  rewrite (impacts_of_annotation pre mid post Hpre Hmid1 Hmid2).
  destruct (negb (Py.contains "(" (pre +:+ "(" +:+ mid +:+ ")" +:+ post))
            || negb (Py.contains ")" (pre +:+ "(" +:+ mid +:+ ")" +:+ post)));
    [split; reflexivity|].
  split.
  - intros tokens -> Hlen. cbn [mbind result_bind rbind].
    apply Nat.ltb_lt in Hlen. now rewrite Hlen.
  - intros t0 t1 rest e -> Hbad. cbn.
    destruct (extract_number t0) as [n0|e0]; [|reflexivity]. cbn.
    destruct Hbad as [Hbad|Hbad]; [discriminate Hbad|].
    now rewrite Hbad.
Qed.

Lemma parse_stats_impact_never_raises_witness :
  parse_stats_impact "no parentheses here" = Ok (0, 0) /\
  parse_stats_impact "Loan (Wealth: +40000)" = Ok (0, 0) /\
  parse_stats_impact "Hedge (Happiness: +-20, Wealth: +5)" = Ok (0, 0) /\
  parse_stats_impact "Wait (Happiness: none, Wealth: +5)" = Ok (0, 0).
Proof.
  split; [|split; [|split]].
  - apply (parse_stats_impact_never_raises "no parentheses here").
    left; reflexivity.
  - destruct (parse_stats_impact_never_raises "Loan (Wealth: +40000)")
      as (_ & _ & H).
    destruct (H "Loan " "Wealth: +40000" "" eq_refl eq_refl eq_refl eq_refl)
      as [Hfew _].
    apply (Hfew ["Wealth: +40000"]); [reflexivity | cbn; lia].
  - destruct (parse_stats_impact_never_raises "Hedge (Happiness: +-20, Wealth: +5)")
      as (_ & _ & H).
    destruct (H "Hedge " "Happiness: +-20, Wealth: +5" ""
                eq_refl eq_refl eq_refl eq_refl) as [_ Hbad].
    apply (Hbad "Happiness: +-20" " Wealth: +5" [] ValueError);
      [reflexivity | left; reflexivity].
  - destruct (parse_stats_impact_never_raises "Wait (Happiness: none, Wealth: +5)")
      as (_ & _ & H).
    destruct (H "Wait " "Happiness: none, Wealth: +5" ""
                eq_refl eq_refl eq_refl eq_refl) as [_ Hbad].
    apply (Hbad "Happiness: none" " Wealth: +5" [] ValueError);
      [reflexivity | left; reflexivity].
Defined.

(** C4 as stated fails: in ["(1,2(-)"] the text between the first ["("] and
    the first [")"] after it is ["1,2(-"]; its second token ["2(-"] keeps
    ["2-"], which is no integer literal, yet the parser, which cuts at the
    second ["("], reads the tokens ["1"] and ["2"] and returns [(1, 2)]. *)
Lemma parse_stats_impact_no_default_second_open_paren :
  ~ (forall (choice pre mid post t0 t1 : string) (rest : list string) (e : exn),
        choice = pre +:+ "(" +:+ mid +:+ ")" +:+ post ->
        Py.contains "(" pre = false ->
        Py.contains ")" mid = false ->
        Py.split mid "," = Ok (t0 :: t1 :: rest) ->
        extract_number t0 = Raise e \/ extract_number t1 = Raise e ->
        parse_stats_impact choice = Ok (0, 0)).
Proof.
  intros H.
  specialize (H "(1,2(-)" "" "1,2(-" "" "1" "2(-" [] ValueError
                eq_refl eq_refl eq_refl eq_refl (or_intror eq_refl)).
  discriminate H.
Qed.

(** * Segment slicing *)

Lemma segment_story_raises segment e :
  segment_story segment = Raise e -> e = IndexError.
Proof.
  unfold segment_story, mbind, result_bind, Py.index. cbn [Py.split rbind].
  destruct (nth_error (Py.split_go "STORY:" segment 0) 1) as [a|];
    cbn [rbind]; [|now intros [= <-]].
  destruct (nth_error (Py.split_go "CHOICES:" a 0) 0) as [b|];
    cbn; [discriminate | now intros [= <-]].
Qed.

(** A segment in which the marker [STORY:] or the marker [CHOICES:] does
    not occur cannot be sliced: the indexing of the pieces raises
    [IndexError] and no story or choice text is returned. *)
Lemma parse_segment_marker_absent (segment : string) :
  (Py.contains "STORY:" segment = false ->
   segment_story segment = Raise IndexError) /\
  (Py.contains "CHOICES:" segment = false ->
   segment_choices segment = Raise IndexError) /\
  (Py.contains "STORY:" segment = false \/ Py.contains "CHOICES:" segment = false ->
   parse_segment segment = Raise IndexError).
Proof.
  assert (Hstory : Py.contains "STORY:" segment = false ->
                   segment_story segment = Raise IndexError).
  { intros H. unfold segment_story.
    rewrite (split_absent "STORY:" segment); [reflexivity | discriminate | exact H]. }
  assert (Hchoices : Py.contains "CHOICES:" segment = false ->
                     segment_choices segment = Raise IndexError).
  { intros H. unfold segment_choices.
    rewrite (split_absent ("CHOICES:" +:+ newline) segment);
      [reflexivity | discriminate |].
    destruct (Py.contains ("CHOICES:" +:+ newline) segment) eqn:E; [|reflexivity].
    apply contains_app_l in E. congruence. }
  split; [exact Hstory|]. split; [exact Hchoices|].
  intros [H|H]; unfold parse_segment.
  - now rewrite (Hstory H).
  - rewrite (Hchoices H).
    destruct (segment_story segment) as [story|e] eqn:E; [reflexivity|].
    apply segment_story_raises in E. now subst e.
Qed.

(** * One turn: [make_choice]

    The three ways a turn can go. *)

Section Turn.

Variable w : World.

(** The turn stops before the stat update: blank text, or the insert into
    the choice table raises. *)
Lemma make_choice_stopped_early choice_text st :
  empty_choice choice_text = true \/
  (exists e, db_insert w choice_text (game_id st) = Raise e) ->
  exists next,
    get_story_segment w recovery_situation (spent st) = (spent st, Ok next) /\
    make_choice w choice_text st = (spent st, Ok (fallback_consequence, next)).
Proof.
  intros H. eexists. split; [apply get_story_segment_run|].
  unfold_turn. fold (spent st).
  destruct (empty_choice choice_text) eqn:E.
  - rewrite get_story_segment_run. reflexivity.
  - destruct H as [H|[e H]]; [discriminate H|].
    cbn [game_id spent]. rewrite H.
    rewrite get_story_segment_run. reflexivity.
Qed.

(** The consequence call raises, after the stat update. *)
Lemma make_choice_consequence_raised choice_text st dh dw e :
  empty_choice choice_text = false ->
  db_insert w choice_text (game_id st) = Ok tt ->
  parse_stats_impact choice_text = Ok (dh, dw) ->
  consequence_chain w (format_history (impacted dh dw st)) choice_text
    (happiness (impacted dh dw st)) (wealth (impacted dh dw st)) = Raise e ->
  exists next,
    get_story_segment w recovery_situation (impacted dh dw st)
    = (impacted dh dw st, Ok next) /\
    make_choice w choice_text st
    = (impacted dh dw st, Ok (fallback_consequence, next)).
Proof.
  intros Hne Hins Hparse Hcons. eexists. split; [apply get_story_segment_run|].
  unfold_turn. fold (spent st).
  rewrite Hne. cbn [game_id spent]. rewrite Hins.
  rewrite (update_stats_run _ _ _ _ Hparse).
  change (mkGame (player_history (spent st)) _ _ _ _) with (impacted dh dw st).
  rewrite Hcons, get_story_segment_run. reflexivity.
Qed.

(** The consequence call answers. *)
Lemma make_choice_consequence_returned choice_text st dh dw consequence :
  empty_choice choice_text = false ->
  db_insert w choice_text (game_id st) = Ok tt ->
  parse_stats_impact choice_text = Ok (dh, dw) ->
  consequence_chain w (format_history (impacted dh dw st)) choice_text
    (happiness (impacted dh dw st)) (wealth (impacted dh dw st))
  = Ok consequence ->
  exists next,
    get_story_segment w consequence (recorded choice_text dh dw st)
    = (recorded choice_text dh dw st, Ok next) /\
    make_choice w choice_text st
    = (recorded choice_text dh dw st, Ok (consequence, next)).
Proof.
  intros Hne Hins Hparse Hcons. eexists. split; [apply get_story_segment_run|].
  unfold_turn. fold (spent st).
  rewrite Hne. cbn [game_id spent]. rewrite Hins.
  rewrite (update_stats_run _ _ _ _ Hparse).
  change (mkGame (player_history (spent st)) _ _ _ _) with (impacted dh dw st).
  rewrite Hcons.
  change (mkGame (player_history (impacted dh dw st) ++ [choice_text]) _ _ _ _)
    with (recorded choice_text dh dw st).
  rewrite get_story_segment_run. reflexivity.
Qed.

End Turn.

(** *** Blank text, in the words of the code and of the specification *)

Lemma rstrip_empty s : Py.rstrip s = EmptyString -> whitespace_only s = true.
Proof.
  induction s as [|c s IH]; [reflexivity|].
  cbn [Py.rstrip whitespace_only].
  destruct (Py.rstrip s) as [|d r]; [|discriminate].
  destruct (Py.isspace c); [|discriminate].
  intros _. now rewrite IH.
Qed.

Lemma lstrip_whitespace_only s :
  whitespace_only (Py.lstrip s) = true -> whitespace_only s = true.
Proof.
  induction s as [|c s IH]; [reflexivity|].
  cbn [Py.lstrip whitespace_only].
  destruct (Py.isspace c) eqn:E; [exact IH|].
  cbn [whitespace_only]. now rewrite E.
Qed.

Lemma empty_choice_whitespace_only s :
  empty_choice s = whitespace_only s.
Proof.
  destruct (whitespace_only s) eqn:E; [now apply whitespace_only_empty_choice|].
  unfold empty_choice. destruct s as [|c s]; [discriminate E|].
  cbn [Py.truthy negb orb].
  destruct (Py.strip (String c s)) as [|d r] eqn:Es; [|reflexivity].
  apply rstrip_empty, lstrip_whitespace_only in Es. congruence.
Qed.

(** * Claims on [make_choice] *)

(** C6. Whatever the choice text, the state and the collaborators,
    [make_choice] returns with [turn_count] exactly one higher: the
    increment is the first step of the turn and survives blank text, a
    failing insert, and failing consequence or story calls. *)
Theorem make_choice_spends_turn (w : World) (st : Game) (choice_text : string) :
  exists st' consequence next,
    make_choice w choice_text st = (st', Ok (consequence, next)) /\
    turn_count st' = turn_count st + 1.
Proof.
  destruct (empty_choice choice_text) eqn:Hempty.
  { destruct (make_choice_stopped_early w choice_text st) as (next & _ & H);
      [now left|].
    exists (spent st), fallback_consequence, next. now split. }
  destruct (db_insert w choice_text (game_id st)) as [[]|e] eqn:Hins.
  2:{ destruct (make_choice_stopped_early w choice_text st) as (next & _ & H);
        [right; now exists e|].
      exists (spent st), fallback_consequence, next. now split. }
  destruct (parse_stats_impact_total choice_text) as (dh & dw & Hparse).
  destruct (consequence_chain w (format_history (impacted dh dw st)) choice_text
              (happiness (impacted dh dw st)) (wealth (impacted dh dw st)))
    as [consequence|e] eqn:Hcons.
  - destruct (make_choice_consequence_returned w choice_text st dh dw consequence)
      as (next & _ & H); try assumption.
    exists (recorded choice_text dh dw st), consequence, next. now split.
  - destruct (make_choice_consequence_raised w choice_text st dh dw e)
      as (next & _ & H); try assumption.
    exists (impacted dh dw st), fallback_consequence, next. now split.
Qed.

(** C7, amended.  On empty or whitespace-only text [make_choice] raises
    inside its own [try] and absorbs the error: the caller gets the fallback
    consequence and a segment asked for with the recovery prompt, and no
    error.  Happiness, wealth, history and game id are as before, and
    [turn_count] is one higher. *)
Theorem make_choice_blank (w : World) (st : Game) (choice_text : string) :
  whitespace_only choice_text = true ->
  exists st' next,
    make_choice w choice_text st = (st', Ok (fallback_consequence, next)) /\
    get_story_segment w recovery_situation st' = (st', Ok next) /\
    turn_count st' = turn_count st + 1 /\
    happiness st' = happiness st /\
    wealth st' = wealth st /\
    player_history st' = player_history st /\
    game_id st' = game_id st.
Proof.
  intros Hblank.
  destruct (make_choice_stopped_early w choice_text st) as (next & Hseg & H).
  { left. now apply whitespace_only_empty_choice. }
  exists (spent st), next. repeat split; assumption.
Qed.

Lemma make_choice_blank_witness :
  exists st' next,
    make_choice world_up "   " (new_game "g")
    = (st', Ok (fallback_consequence, next)) /\
    turn_count st' = 1 /\ happiness st' = 30 /\ wealth st' = 100000.
Proof.
  destruct (make_choice_blank world_up (new_game "g") "   " eq_refl)
    as (st' & next & Hrun & _ & Ht & Hh & Hw & _).
  exists st', next. repeat split; assumption.
Defined.

(** C7 as stated fails on the empty string: the turn is counted, and the
    caller is handed a result, not an error. *)
Lemma make_choice_blank_counts_turn :
  ~ (forall (w : World) (st : Game) (choice_text : string),
        whitespace_only choice_text = true ->
        turn_count (fst (make_choice w choice_text st)) = turn_count st) /\
  ~ (forall (w : World) (st : Game) (choice_text : string),
        whitespace_only choice_text = true ->
        exists e, snd (make_choice w choice_text st) = Raise e).
Proof.
  split; intros H.
  - specialize (H world_up (new_game "g") "" eq_refl). discriminate H.
  - destruct (H world_up (new_game "g") "" eq_refl) as [e He]. discriminate He.
Qed.

Lemma error_segment_not_actionable : ~ actionable error_segment.
Proof. intros (story & choices & H). discriminate H. Qed.

(** What [get_story_segment] returns when one of its two calls raises. *)
Lemma get_story_segment_failed w situation st :
  (exists e, db_select w (game_id st) = Raise e) \/
  (exists previous e,
      db_select w (game_id st) = Ok previous /\
      story_chain w (format_history st) situation (happiness st) (wealth st)
        previous = Raise e) ->
  get_story_segment w situation st = (st, Ok error_segment).
Proof.
  rewrite get_story_segment_run.
  intros [[e ->]|(previous & e & -> & ->)]; reflexivity.
Qed.

(** How a turn went: it stopped before the stat update, or the consequence
    call raised, or it answered.  [situation] is what the next segment was
    asked for with. *)
Lemma make_choice_ways (w : World) (st : Game) (choice_text : string) :
  exists st' consequence next situation,
    make_choice w choice_text st = (st', Ok (consequence, next)) /\
    get_story_segment w situation st' = (st', Ok next) /\
    (((empty_choice choice_text = true \/
       exists e, db_insert w choice_text (game_id st) = Raise e) /\
      consequence = fallback_consequence /\ situation = recovery_situation) \/
     (empty_choice choice_text = false /\
      db_insert w choice_text (game_id st) = Ok tt /\
      exists dh dw,
        parse_stats_impact choice_text = Ok (dh, dw) /\
        ((exists e,
             consequence_chain w (format_history st) choice_text
               (Z.max 0 (Z.min 100 (happiness st + dh)))
               (Z.max 0 (wealth st + dw)) = Raise e) /\
         consequence = fallback_consequence /\ situation = recovery_situation \/
         consequence_chain w (format_history st) choice_text
           (Z.max 0 (Z.min 100 (happiness st + dh)))
           (Z.max 0 (wealth st + dw)) = Ok consequence /\
         situation = consequence))).
Proof.
  destruct (empty_choice choice_text) eqn:Hempty.
  { destruct (make_choice_stopped_early w choice_text st) as (next & Hseg & H);
      [now left|].
    exists (spent st), fallback_consequence, next, recovery_situation.
    split; [exact H|]. split; [exact Hseg|]. left. auto. }
  destruct (db_insert w choice_text (game_id st)) as [[]|e] eqn:Hins.
  2:{ destruct (make_choice_stopped_early w choice_text st) as (next & Hseg & H);
        [right; now exists e|].
      exists (spent st), fallback_consequence, next, recovery_situation.
      split; [exact H|]. split; [exact Hseg|]. left.
      split; [right; now exists e | auto]. }
  destruct (parse_stats_impact_total choice_text) as (dh & dw & Hparse).
  destruct (consequence_chain w (format_history (impacted dh dw st)) choice_text
              (happiness (impacted dh dw st)) (wealth (impacted dh dw st)))
    as [consequence|e] eqn:Hcons.
  - destruct (make_choice_consequence_returned w choice_text st dh dw consequence)
      as (next & Hseg & H); try assumption.
    exists (recorded choice_text dh dw st), consequence, next, consequence.
    split; [exact H|]. split; [exact Hseg|]. right.
    split; [reflexivity|]. split; [reflexivity|].
    exists dh, dw. split; [exact Hparse|]. right. split; [exact Hcons | reflexivity].
  - destruct (make_choice_consequence_raised w choice_text st dh dw e)
      as (next & Hseg & H); try assumption.
    exists (impacted dh dw st), fallback_consequence, next, recovery_situation.
    split; [exact H|]. split; [exact Hseg|]. right.
    split; [reflexivity|]. split; [reflexivity|].
    exists dh, dw. split; [exact Hparse|]. left.
    split; [now exists e | auto].
Qed.

(** C8, amended.  [make_choice] never raises: on every input it returns a
    pair of texts, a consequence and a next segment.  Whenever the
    consequence call the turn makes raises, the consequence is the fixed
    fallback and the next segment is asked for with the recovery prompt;
    the same holds when the turn stops before that call, on blank text or
    on a failing insert into the choice table; otherwise the consequence is
    the answer of the consequence call and the next segment is asked for
    with it.  Whenever the next-segment request the turn makes fails, at
    the lookup of previous choices or at the story call, the next segment
    is the fixed text [error_segment], which [game_action] cannot slice:
    the turn is then left without an actionable segment. *)
Theorem make_choice_always_returns (w : World) (st : Game) (choice_text : string) :
  exists st' consequence next situation,
    make_choice w choice_text st = (st', Ok (consequence, next)) /\
    get_story_segment w situation st' = (st', Ok next) /\
    ((consequence = fallback_consequence /\ situation = recovery_situation) \/
     (situation = consequence /\
      exists dh dw,
        parse_stats_impact choice_text = Ok (dh, dw) /\
        consequence_chain w (format_history st) choice_text
          (Z.max 0 (Z.min 100 (happiness st + dh)))
          (Z.max 0 (wealth st + dw)) = Ok consequence)) /\
    (forall dh dw e,
        whitespace_only choice_text = false ->
        db_insert w choice_text (game_id st) = Ok tt ->
        parse_stats_impact choice_text = Ok (dh, dw) ->
        consequence_chain w (format_history st) choice_text
          (Z.max 0 (Z.min 100 (happiness st + dh)))
          (Z.max 0 (wealth st + dw)) = Raise e ->
        consequence = fallback_consequence /\ situation = recovery_situation) /\
    (whitespace_only choice_text = true \/
     (exists e, db_insert w choice_text (game_id st) = Raise e) ->
     consequence = fallback_consequence /\ situation = recovery_situation) /\
    (forall dh dw answer,
        whitespace_only choice_text = false ->
        db_insert w choice_text (game_id st) = Ok tt ->
        parse_stats_impact choice_text = Ok (dh, dw) ->
        consequence_chain w (format_history st) choice_text
          (Z.max 0 (Z.min 100 (happiness st + dh)))
          (Z.max 0 (wealth st + dw)) = Ok answer ->
        consequence = answer /\ situation = answer) /\
    ((exists e, db_select w (game_id st') = Raise e) \/
     (exists previous e,
         db_select w (game_id st') = Ok previous /\
         story_chain w (format_history st') situation (happiness st')
           (wealth st') previous = Raise e) ->
     next = error_segment /\ ~ actionable next).
Proof.
  destruct (make_choice_ways w st choice_text)
    as (st' & consequence & next & situation & Hrun & Hseg & Hway).
  exists st', consequence, next, situation.
  split; [exact Hrun|]. split; [exact Hseg|].
  rewrite <- empty_choice_whitespace_only.
  split; [|split; [|split; [|split]]].
  - destruct Hway as [(_ & ? & ?)|(_ & _ & dh & dw & Hparse & [(_ & ? & ?)|[Hok ?]])];
      [now left | now left |].
    right. split; [assumption|]. now exists dh, dw.
  - intros dh dw e Hne Hins Hparse Hraise.
    destruct Hway as [([He|[e' He]] & ? & ?)
                     |(_ & _ & dh' & dw' & Hparse' & [(_ & ? & ?)|[Hok ?]])];
      [congruence | congruence | now split |].
    rewrite Hparse in Hparse'. injection Hparse' as <- <-. congruence.
  - intros Hstop.
    destruct Hway as [(_ & ? & ?)|(Hne & Hins & _)]; [now split|].
    destruct Hstop as [He|[e He]]; congruence.
  - intros dh dw answer Hne Hins Hparse Hanswer.
    destruct Hway as [([He|[e' He]] & _)
                     |(_ & _ & dh' & dw' & Hparse' & Hway)];
      [congruence | congruence |].
    rewrite Hparse in Hparse'. injection Hparse' as <- <-.
    destruct Hway as [([e He] & _)|[Hok ->]]; [congruence|].
    rewrite Hanswer in Hok. now injection Hok as ->.
  - intros Hfail.
    rewrite (get_story_segment_failed w situation st' Hfail) in Hseg.
    injection Hseg as <-. split; [reflexivity|].
    apply error_segment_not_actionable.
Qed.

Lemma make_choice_always_returns_witness :
  exists st' next,
    make_choice world_consequence_down bran_choice (new_game "g")
    = (st', Ok (fallback_consequence, next)) /\
    get_story_segment world_consequence_down recovery_situation st' = (st', Ok next).
Proof.
  destruct (make_choice_always_returns world_consequence_down (new_game "g") bran_choice)
    as (st' & consequence & next & situation & Hrun & Hseg & _ & Hdown & _).
  destruct (Hdown 10 25000 ExternalError eq_refl eq_refl eq_refl eq_refl)
    as [-> ->].
  exists st', next. split; assumption.
Defined.

(** C8 as stated fails when the story call is down: the turn ends with
    [error_segment] as the next segment, which is not actionable, and with
    the answer of the consequence call, not the fallback, as consequence. *)
Lemma make_choice_story_down_stuck :
  ~ (forall (w : World) (st : Game) (choice_text : string),
        (forall hist sit hp wl previous,
            story_chain w hist sit hp wl previous = Raise ExternalError) ->
        exists st' consequence next,
          make_choice w choice_text st = (st', Ok (consequence, next)) /\
          actionable next) /\
  make_choice world_story_down bran_choice (new_game "g")
  = (mkGame [bran_choice] 40 125000 1 "g",
     Ok ("The Iron Bank approves.", error_segment)).
Proof.
  split; [|reflexivity].
  intros H.
  destruct (H world_story_down (new_game "g") bran_choice)
    as (st' & consequence & next & Hrun & Hact); [reflexivity|].
  vm_compute in Hrun. injection Hrun as _ _ <-.
  now apply error_segment_not_actionable.
Qed.

(** C10. For a choice text that is not blank, when the insert into the
    choice table succeeds and the consequence call then raises, the turn is
    half applied: happiness and wealth hold their updated, clamped values
    and [turn_count] is one higher, the history does not get the choice,
    and the caller receives an ordinary pair, the fallback consequence and a
    segment asked for with the recovery prompt. *)
Theorem make_choice_not_atomic
    (w : World) (st : Game) (choice_text : string) (dh dw : Z) (e : exn) :
  whitespace_only choice_text = false ->
  db_insert w choice_text (game_id st) = Ok tt ->
  parse_stats_impact choice_text = Ok (dh, dw) ->
  consequence_chain w (format_history st) choice_text
    (Z.max 0 (Z.min 100 (happiness st + dh))) (Z.max 0 (wealth st + dw))
  = Raise e ->
  exists st' next,
    make_choice w choice_text st = (st', Ok (fallback_consequence, next)) /\
    get_story_segment w recovery_situation st' = (st', Ok next) /\
    happiness st' = Z.max 0 (Z.min 100 (happiness st + dh)) /\
    wealth st' = Z.max 0 (wealth st + dw) /\
    turn_count st' = turn_count st + 1 /\
    player_history st' = player_history st /\
    game_id st' = game_id st.
Proof.
  intros Hblank Hins Hparse Hcons.
  rewrite <- empty_choice_whitespace_only in Hblank.
  destruct (make_choice_consequence_raised w choice_text st dh dw e)
    as (next & Hseg & H); try assumption.
  exists (impacted dh dw st), next. repeat split; assumption.
Qed.

Lemma make_choice_not_atomic_witness :
  exists st' next,
    make_choice world_consequence_down bran_choice (new_game "g")
    = (st', Ok (fallback_consequence, next)) /\
    happiness st' = 40 /\ wealth st' = 125000 /\ turn_count st' = 1 /\
    player_history st' = [].
Proof.
  destruct (make_choice_not_atomic world_consequence_down (new_game "g")
              bran_choice 10 25000 ExternalError
              eq_refl eq_refl eq_refl eq_refl)
    as (st' & next & Hrun & _ & Hh & Hw & Ht & Hp & _).
  exists st', next. repeat split; assumption.
Defined.

(** * Further properties of the code *)

(** ** [get_story_segment] and [start_game] *)

(** X1. [get_story_segment], and so [start_game], never raises and never
    changes the game object.  The text returned is the answer of the story
    call made with the formatted history, the situation and the current
    stats, or else the fixed error text; it is the error text whenever the
    lookup of previous choices raises, whatever the story call would say. *)
Theorem get_story_segment_safe (w : World) (situation : string) (st : Game) :
  exists text,
    get_story_segment w situation st = (st, Ok text) /\
    (text = error_segment \/
     exists previous,
       db_select w (game_id st) = Ok previous /\
       story_chain w (format_history st) situation (happiness st) (wealth st)
         previous = Ok text) /\
    ((exists e, db_select w (game_id st) = Raise e) -> text = error_segment) /\
    (situation = initial_situation -> start_game w st = (st, Ok text)).
Proof.
  rewrite get_story_segment_run. eexists. split; [reflexivity|].
  split; [|split].
  - destruct (db_select w (game_id st)) as [previous|e]; [|now left].
    destruct (story_chain w (format_history st) situation (happiness st)
                (wealth st) previous) as [text|e] eqn:E; [|now left].
    right. now exists previous.
  - intros [e ->]. reflexivity.
  - intros ->. unfold start_game. now rewrite get_story_segment_run.
Qed.

Lemma get_story_segment_safe_witness :
  start_game world_story_down (new_game "g") = (new_game "g", Ok error_segment).
Proof.
  destruct (get_story_segment_safe world_story_down initial_situation (new_game "g"))
    as (text & _ & Hwhich & _ & Hstart).
  rewrite (Hstart eq_refl).
  destruct Hwhich as [->|(previous & _ & Hstory)];
    [reflexivity | discriminate Hstory].
Defined.

(** ** What one turn does to the state *)

(** The state after a turn is one of three, according to how far it got. *)
Lemma make_choice_outcomes (w : World) (choice_text : string) (st : Game) :
  exists dh dw,
    parse_stats_impact choice_text = Ok (dh, dw) /\
    (fst (make_choice w choice_text st) = spent st \/
     (empty_choice choice_text = false /\
      fst (make_choice w choice_text st) = impacted dh dw st) \/
     (empty_choice choice_text = false /\
      fst (make_choice w choice_text st) = recorded choice_text dh dw st)).
Proof.
  destruct (parse_stats_impact_total choice_text) as (dh & dw & Hparse).
  exists dh, dw. split; [exact Hparse|].
  destruct (empty_choice choice_text) eqn:Hempty.
  { destruct (make_choice_stopped_early w choice_text st) as (next & _ & H);
      [now left|]. left. now rewrite H. }
  destruct (db_insert w choice_text (game_id st)) as [[]|e] eqn:Hins.
  2:{ destruct (make_choice_stopped_early w choice_text st) as (next & _ & H);
        [right; now exists e|]. left. now rewrite H. }
  destruct (consequence_chain w (format_history (impacted dh dw st)) choice_text
              (happiness (impacted dh dw st)) (wealth (impacted dh dw st)))
    as [consequence|e] eqn:Hcons.
  - destruct (make_choice_consequence_returned w choice_text st dh dw consequence)
      as (next & _ & H); try assumption.
    right. right. split; [reflexivity|]. now rewrite H.
  - destruct (make_choice_consequence_raised w choice_text st dh dw e)
      as (next & _ & H); try assumption.
    right. left. split; [reflexivity|]. now rewrite H.
Qed.

(** The same facts as lemmas for later proofs. *)
Lemma make_choice_keeps_bounds_aux (w : World) (choice_text : string) (st : Game) :
  0 <= happiness st <= 100 ->
  0 <= wealth st ->
  0 <= happiness (fst (make_choice w choice_text st)) <= 100 /\
  0 <= wealth (fst (make_choice w choice_text st)).
Proof.
  intros Hh Hw.
  destruct (make_choice_outcomes w choice_text st)
    as (dh & dw & _ & [->|[[_ ->]|[_ ->]]]); cbn; lia.
Qed.

Lemma make_choice_game_id (w : World) (choice_text : string) (st : Game) :
  game_id (fst (make_choice w choice_text st)) = game_id st.
Proof.
  destruct (make_choice_outcomes w choice_text st)
    as (dh & dw & _ & [->|[[_ ->]|[_ ->]]]); reflexivity.
Qed.

Lemma make_choice_history_aux (w : World) (choice_text : string) (st : Game) :
  player_history (fst (make_choice w choice_text st)) = player_history st \/
  player_history (fst (make_choice w choice_text st))
  = (player_history st ++ [choice_text])%list.
Proof.
  destruct (make_choice_outcomes w choice_text st)
    as (dh & dw & _ & [->|[[_ ->]|[_ ->]]]); cbn; auto.
Qed.

(** X2. A turn keeps the stat bounds: from a state with happiness within
    0..100 and wealth not negative, [make_choice] leads to such a state,
    for every choice text and whatever the collaborators do. *)
Theorem make_choice_keeps_bounds (w : World) (choice_text : string) (st : Game) :
  0 <= happiness st <= 100 ->
  0 <= wealth st ->
  0 <= happiness (fst (make_choice w choice_text st)) <= 100 /\
  0 <= wealth (fst (make_choice w choice_text st)).
Proof.
  intros Hh Hw.
  destruct (make_choice_outcomes w choice_text st)
    as (dh & dw & _ & [->|[[_ ->]|[_ ->]]]); cbn; lia.
Qed.

Lemma make_choice_keeps_bounds_witness :
  0 <= happiness (fst (make_choice world_up
                         "Burn it all (Happiness: -500, Wealth: -900000)"
                         (new_game "g"))) <= 100 /\
  0 <= wealth (fst (make_choice world_up
                      "Burn it all (Happiness: -500, Wealth: -900000)"
                      (new_game "g"))).
Proof.
  apply (make_choice_keeps_bounds world_up
           "Burn it all (Happiness: -500, Wealth: -900000)" (new_game "g"));
    cbn; lia.
Defined.

(** X3. The history is append-only and the game id is fixed: after a turn
    the history is the old one, or the old one followed by the submitted
    text, and it is extended only by a text that is not blank; so a history
    without blank entries stays without them. *)
Theorem make_choice_history (w : World) (choice_text : string) (st : Game) :
  game_id (fst (make_choice w choice_text st)) = game_id st /\
  (player_history (fst (make_choice w choice_text st)) = player_history st \/
   (player_history (fst (make_choice w choice_text st))
    = (player_history st ++ [choice_text])%list /\
    whitespace_only choice_text = false)) /\
  (Forall (fun c => whitespace_only c = false) (player_history st) ->
   Forall (fun c => whitespace_only c = false)
     (player_history (fst (make_choice w choice_text st)))).
Proof.
  destruct (make_choice_outcomes w choice_text st)
    as (dh & dw & _ & [->|[[_ ->]|[Hne ->]]]); cbn.
  - split; [reflexivity|]. split; [now left | auto].
  - split; [reflexivity|]. split; [now left | auto].
  - rewrite empty_choice_whitespace_only in Hne.
    split; [reflexivity|]. split; [now right|].
    intros H. apply Forall_app. split; [exact H|]. now constructor.
Qed.

Lemma make_choice_history_witness :
  Forall (fun c => whitespace_only c = false)
    (player_history (fst (make_choice world_up bran_choice
                            (mkGame ["Sell Winterfell"] 30 100000 1 "g")))).
Proof.
  apply (make_choice_history world_up bran_choice
           (mkGame ["Sell Winterfell"] 30 100000 1 "g")).
  constructor; [reflexivity | constructor].
Defined.

(** X4. A choice text that carries no parenthesis leaves the stats of a
    state within bounds as they are: [update_stats] returns the impacts
    [(0, 0)] and the same state. *)
Theorem update_stats_no_annotation (choice_text : string) (st : Game) :
  Py.contains "(" choice_text = false \/ Py.contains ")" choice_text = false ->
  0 <= happiness st <= 100 ->
  0 <= wealth st ->
  update_stats choice_text st = (st, Ok (0, 0)).
Proof.
  intros Hno Hh Hw.
  assert (Hparse : parse_stats_impact choice_text = Ok (0, 0)).
  { unfold parse_stats_impact, parse_stats_impact_body.
    destruct Hno as [-> | ->]; [reflexivity|].
    now rewrite orb_true_r. }
  rewrite (update_stats_run _ _ _ _ Hparse).
  destruct st as [hist h wl t g]. cbn in *. do 2 f_equal; lia.
Qed.

Lemma update_stats_no_annotation_witness :
  update_stats "Do nothing" (new_game "g") = (new_game "g", Ok (0, 0)).
Proof.
  apply (update_stats_no_annotation "Do nothing" (new_game "g"));
    [left; reflexivity | cbn; lia | cbn; lia].
Defined.

(** ** Several turns *)

Lemma make_choice_turn_count (w : World) (choice_text : string) (st : Game) :
  turn_count (fst (make_choice w choice_text st)) = turn_count st + 1.
Proof.
  destruct (make_choice_outcomes w choice_text st)
    as (dh & dw & _ & [->|[[_ ->]|[_ ->]]]); reflexivity.
Qed.

Lemma check_game_over_turn_limit (st : Game) :
  10 <= turn_count st -> fst (check_game_over st) = true.
Proof.
  intros H. unfold check_game_over.
  destruct (happiness st <=? 0); [reflexivity|].
  destruct (wealth st <=? 0); [reflexivity|].
  destruct ((happiness st >=? 80) && (wealth st >=? 150000)); [reflexivity|].
  destruct (Z.geb_spec (turn_count st) 10); [reflexivity | lia].
Qed.

Lemma play_cons (w : World) (c : string) (steps : list (World * string)) (st : Game) :
  play ((w, c) :: steps) st = play steps (fst (make_choice w c st)).
Proof. reflexivity. Qed.

(** X5. Over any sequence of submitted texts, with any collaborators at each
    turn: the turn count grows by the number of turns, the game id stays,
    stats within bounds stay within bounds, the old history is a prefix of
    the new one, and once the count reaches ten [check_game_over] reports
    the game over.  A fresh game is thus over after ten submissions at the
    latest. *)
Theorem play_turns (steps : list (World * string)) (st : Game) :
  turn_count (play steps st) = turn_count st + Z.of_nat (length steps) /\
  game_id (play steps st) = game_id st /\
  (0 <= happiness st <= 100 -> 0 <= wealth st ->
   0 <= happiness (play steps st) <= 100 /\ 0 <= wealth (play steps st)) /\
  (exists added,
      player_history (play steps st) = (player_history st ++ added)%list) /\
  (10 <= turn_count st + Z.of_nat (length steps) ->
   fst (check_game_over (play steps st)) = true).
Proof.
  assert (Hcount : forall steps st,
             turn_count (play steps st) = turn_count st + Z.of_nat (length steps)).
  { clear. induction steps as [|[w c] steps IH]; intros st; [cbn; lia|].
    rewrite play_cons, IH, make_choice_turn_count. cbn [length]. lia. }
  split; [apply Hcount|].
  split; [|split; [|split]].
  - revert st. induction steps as [|[w c] steps IH]; intros st; [reflexivity|].
    rewrite play_cons, IH. apply make_choice_game_id.
  - revert st. induction steps as [|[w c] steps IH]; intros st Hh Hw; [now split|].
    rewrite play_cons.
    destruct (make_choice_keeps_bounds_aux w c st Hh Hw). now apply IH.
  - revert st. induction steps as [|[w c] steps IH]; intros st.
    + exists []. cbn. now rewrite app_nil_r.
    + rewrite play_cons.
      destruct (IH (fst (make_choice w c st))) as [added Hadd].
      destruct (make_choice_history_aux w c st) as [Hsame|Hmore].
      * exists added. now rewrite Hadd, Hsame.
      * exists (c :: added). now rewrite Hadd, Hmore, <- app_assoc.
  - intros H. apply check_game_over_turn_limit. now rewrite Hcount.
Qed.

Lemma play_turns_witness :
  fst (check_game_over
         (play (repeat (world_up, "Wait and see") 10) (new_game "g"))) = true.
Proof.
  apply (play_turns (repeat (world_up, "Wait and see") 10) (new_game "g")).
  cbn. lia.
Defined.

(** ** More on the impact parser *)

Lemma split_go_char_two c s :
  Py.contains (char c) s = true ->
  exists a b rest, Py.split_go (char c) s 0 = a :: b :: rest.
Proof.
  induction s as [|d s IH]; intros H; [discriminate H|].
  cbn [Py.split_go]. cbn [Py.contains] in H. rewrite startswith_char in *.
  destruct (ascii_dec c d) as [->|Hne].
  - destruct (Py.split_go (char d) s 0) as [|b rest] eqn:E;
      [now apply split_go_not_nil in E|].
    cbn. rewrite E. now exists EmptyString, b, rest.
  - destruct (IH H) as (a & b & rest & ->). now exists (String d a), b, rest.
Qed.

Lemma int_raises s e : Py.int s = Raise e -> e = ValueError.
Proof.
  unfold Py.int. cbv zeta.
  destruct (match Py.int_rstrip (Py.int_lstrip s) with
            | EmptyString => None
            | String c rest =>
                if (Py.code c =? 43)%N then Py.digits_go rest 0 false
                else if (Py.code c =? 45)%N
                     then Z.opp <$> Py.digits_go rest 0 false
                     else Py.digits_go (Py.int_rstrip (Py.int_lstrip s)) 0 false
            end); [|now intros [= <-]].
  destruct (Py.int_max_str_digits <? _)%N; [now intros [= <-] | discriminate].
Qed.

Lemma impacts_of_defined choice :
  Py.contains "(" choice = true ->
  exists t0 tokens, impacts_of choice = Ok (t0 :: tokens).
Proof.
  intros H. unfold impacts_of.
  destruct (split_go_char_two "(" choice H) as (a & b & rest & Hsplit).
  change (Py.split choice "(") with (Ok (Py.split_go (char "(") choice 0)).
  rewrite Hsplit. cbn [mbind result_bind rbind Py.index nth_error].
  change (Py.split b ")") with (Ok (Py.split_go (char ")") b 0)).
  destruct (Py.split_go (char ")") b 0) as [|q0 q] eqn:E;
    [now apply split_go_not_nil in E|].
  cbn [mbind result_bind rbind Py.index nth_error].
  change (Py.split q0 ",") with (Ok (Py.split_go (char ",") q0 0)).
  destruct (Py.split_go (char ",") q0 0) as [|t0 tokens] eqn:E';
    [now apply split_go_not_nil in E'|].
  now exists t0, tokens.
Qed.

(** X6. Inside [parse_stats_impact] the list indexings cannot fail: once the
    text has a ["("], the slicing yields at least one token; the only
    exception the [try] ever catches is the [ValueError] of [int]. *)
Theorem parse_stats_impact_body_raises (choice : string) :
  (forall e, parse_stats_impact_body choice = Raise e -> e = ValueError) /\
  (Py.contains "(" choice = true ->
   exists t0 tokens, impacts_of choice = Ok (t0 :: tokens)).
Proof.
  split; [|apply impacts_of_defined].
  intros e. unfold parse_stats_impact_body.
  destruct (Py.contains "(" choice) eqn:Ho; [|discriminate].
  destruct (Py.contains ")" choice); [|discriminate]. cbn [negb orb].
  destruct (impacts_of_defined choice Ho) as (t0 & tokens & ->).
  cbn [mbind result_bind rbind].
  destruct tokens as [|t1 tokens]; [discriminate|].
  cbn [length Nat.ltb Nat.leb Py.index nth_error].
  unfold extract_number. cbv [mbind result_bind rbind].
  destruct (Py.int (Py.filter_chars impact_char t0)) as [h|e0] eqn:E0;
    [|intros [= <-]; now apply int_raises in E0].
  destruct (Py.int (Py.filter_chars impact_char t1)) as [w|e1] eqn:E1;
    [discriminate | intros [= <-]; now apply int_raises in E1].
Qed.

Lemma parse_stats_impact_body_raises_witness :
  exists t0 tokens, impacts_of "Sell ( now" = Ok (t0 :: tokens).
Proof.
  apply (parse_stats_impact_body_raises "Sell ( now"). reflexivity.
Defined.

Lemma append_empty_r (s : string) : s +:+ EmptyString = s.
Proof.
  induction s as [|c s IH]; [reflexivity|].
  change (String c s +:+ EmptyString) with (String c (s +:+ EmptyString)).
  now rewrite IH.
Qed.

(** The slicing stops at whichever parenthesis comes first after the first
    ["("], or at the end of the text. *)
Lemma impacts_of_cut pre mid tail :
  Py.contains "(" pre = false ->
  Py.contains "(" mid = false ->
  Py.contains ")" mid = false ->
  tail = EmptyString \/
  (exists rest, tail = String "(" rest \/ tail = String ")" rest) ->
  impacts_of (pre +:+ "(" +:+ mid +:+ tail) = Py.split mid ",".
Proof.
  intros Hpre Hmid1 Hmid2 Htail. unfold impacts_of.
  change (Py.split (pre +:+ "(" +:+ mid +:+ tail) "(")
    with (Ok (Py.split_go (char "(") (pre +:+ String "(" (mid +:+ tail)) 0)).
  rewrite (split_go_char_at "(" pre _ Hpre).
  destruct (split_go_char_head "(" mid tail Hmid1) as (p & ps & ps' & Hb & Hab).
  rewrite Hab. cbn [mbind result_bind rbind Py.index nth_error].
  assert (Hp : p = EmptyString \/ exists p', p = String ")" p').
  { destruct Htail as [->|[rest [-> | ->]]].
    - cbn in Hb. injection Hb as <- _. now left.
    - cbn [Py.split_go] in Hb. rewrite startswith_char in Hb.
      destruct (ascii_dec "(" "(") as [_|Hne]; [|congruence].
      injection Hb as <- _. now left.
    - cbn [Py.split_go] in Hb. rewrite startswith_char in Hb.
      destruct (ascii_dec "(" ")") as [Heq|_]; [discriminate Heq|].
      destruct (Py.split_go (char "(") rest 0) as [|p' ps0] eqn:E;
        [now apply split_go_not_nil in E|].
      injection Hb as <- _. right. now exists p'. }
  destruct Hp as [->|[p' ->]].
  - rewrite append_empty_r.
    rewrite (split_absent ")" mid); [reflexivity | discriminate | exact Hmid2].
  - change (Py.split (mid +:+ String ")" p') ")")
      with (Ok (Py.split_go (char ")") (mid +:+ String ")" p') 0)).
    rewrite (split_go_char_at ")" mid _ Hmid2). reflexivity.
Qed.

(** X7. After the first ["("] the annotation ends at the next parenthesis of
    either kind, or at the end of the text, and a [")"] anywhere in the text
    will do for the guard: the result is that of the bare annotation
    ["(" mid ")"], whatever precedes the first ["("] and whatever follows
    the cut. *)
Theorem parse_stats_impact_cut (pre mid tail : string) :
  Py.contains "(" pre = false ->
  Py.contains "(" mid = false ->
  Py.contains ")" mid = false ->
  tail = EmptyString \/
  (exists rest, tail = String "(" rest \/ tail = String ")" rest) ->
  Py.contains ")" (pre +:+ "(" +:+ mid +:+ tail) = true ->
  parse_stats_impact (pre +:+ "(" +:+ mid +:+ tail)
  = parse_stats_impact ("(" +:+ mid +:+ ")").
Proof.
  intros Hpre Hmid1 Hmid2 Htail Hclose.
  unfold parse_stats_impact, parse_stats_impact_body.
  rewrite Hclose.
  change (Py.contains "(" (pre +:+ "(" +:+ mid +:+ tail))
    with (Py.contains (char "(") (pre +:+ String "(" (mid +:+ tail))).
  rewrite contains_char_here.
  rewrite (impacts_of_cut pre mid tail Hpre Hmid1 Hmid2 Htail).
  change (Py.contains "(" ("(" +:+ mid +:+ ")")) with true.
  change (Py.contains ")" ("(" +:+ mid +:+ ")"))
    with (Py.contains (char ")") (String "(" mid +:+ String ")" EmptyString)).
  rewrite contains_char_here.
  change ("(" +:+ mid +:+ ")")
    with (EmptyString +:+ "(" +:+ mid +:+ ")" +:+ EmptyString).
  rewrite (impacts_of_annotation EmptyString mid EmptyString eq_refl Hmid1 Hmid2).
  reflexivity.
Qed.

Lemma parse_stats_impact_cut_witness :
  parse_stats_impact "Free) the (+7, -3 (dragons" = Ok (7, -3).
Proof.
  change "Free) the (+7, -3 (dragons"
    with ("Free) the " +:+ "(" +:+ "+7, -3 " +:+ "(dragons").
  rewrite (parse_stats_impact_cut "Free) the " "+7, -3 " "(dragons");
    try reflexivity.
  right. exists "dragons". now left.
Defined.

(** *** Signs inside a token *)

Lemma filter_chars_app keep a b :
  Py.filter_chars keep (a +:+ b)
  = Py.filter_chars keep a +:+ Py.filter_chars keep b.
Proof.
  induction a as [|c a IH]; [reflexivity|].
  change (String c a +:+ b) with (String c (a +:+ b)).
  cbn [Py.filter_chars]. destruct (keep c); [|exact IH].
  now rewrite IH.
Qed.

Lemma impact_char_not_space c : impact_char c = true -> Py.int_space c = false.
Proof.
  destruct c as [[] [] [] [] [] [] [] []]; vm_compute; congruence.
Qed.

Lemma filter_chars_head keep s c r :
  Py.filter_chars keep s = String c r -> keep c = true.
Proof.
  induction s as [|d s IH]; [discriminate|].
  cbn [Py.filter_chars]. destruct (keep d) eqn:E; [|exact IH].
  now intros [= <- _].
Qed.

Lemma rstrip_filter_impact s :
  Py.int_rstrip (Py.filter_chars impact_char s) = Py.filter_chars impact_char s.
Proof.
  induction s as [|c s IH]; [reflexivity|].
  cbn [Py.filter_chars]. destruct (impact_char c) eqn:E; [|exact IH].
  cbn [Py.int_rstrip]. rewrite IH, (impact_char_not_space c E).
  now destruct (Py.filter_chars impact_char s).
Qed.

(** What [extract_number] hands to [int] has no whitespace to drop. *)
Lemma strip_filter_impact s :
  Py.int_rstrip (Py.int_lstrip (Py.filter_chars impact_char s))
  = Py.filter_chars impact_char s.
Proof.
  destruct (Py.filter_chars impact_char s) as [|c r] eqn:E; [reflexivity|].
  cbn [Py.int_lstrip].
  rewrite (impact_char_not_space c (filter_chars_head _ _ _ _ E)).
  rewrite <- E. apply rstrip_filter_impact.
Qed.

Lemma digits_go_stops u c v : forall acc prev,
  Py.isdecimal c = false -> (Py.code c =? 95)%N = false ->
  Py.digits_go (u +:+ String c v) acc prev = None.
Proof.
  induction u as [|d u IH]; intros acc prev Hdec Hund.
  - change (EmptyString +:+ String c v) with (String c v).
    cbn [Py.digits_go]. now rewrite Hdec, Hund.
  - change (String d u +:+ String c v) with (String d (u +:+ String c v)).
    cbn [Py.digits_go].
    destruct (Py.isdecimal d); [now apply IH|].
    destruct (Py.code d =? 95)%N; [|reflexivity].
    destruct prev; [now apply IH | reflexivity].
Qed.

Lemma extract_number_sign_inside_aux a c b :
  c = "+"%char \/ c = "-"%char ->
  Py.filter_chars impact_char a <> EmptyString ->
  extract_number (a +:+ String c b) = Raise ValueError.
Proof.
  intros Hc Ha. unfold extract_number, Py.int. cbv zeta.
  rewrite strip_filter_impact, filter_chars_app.
  assert (Hkeep : impact_char c = true) by (destruct Hc as [-> | ->]; reflexivity).
  assert (Hdec : Py.isdecimal c = false) by (destruct Hc as [-> | ->]; reflexivity).
  assert (Hund : (Py.code c =? 95)%N = false)
    by (destruct Hc as [-> | ->]; reflexivity).
  cbn [Py.filter_chars]. rewrite Hkeep.
  destruct (Py.filter_chars impact_char a) as [|x f]; [congruence|].
  change (String x f +:+ String c (Py.filter_chars impact_char b))
    with (String x (f +:+ String c (Py.filter_chars impact_char b))).
  cbv beta iota.
  rewrite (digits_go_stops f c _ 0 false Hdec Hund).
  change (String x (f +:+ String c (Py.filter_chars impact_char b)))
    with (String x f +:+ String c (Py.filter_chars impact_char b)).
  rewrite (digits_go_stops (String x f) c _ 0 false Hdec Hund).
  destruct (Py.code x =? 43)%N; [reflexivity|].
  destruct (Py.code x =? 45)%N; reflexivity.
Qed.

(** X8. A sign character that comes after a digit or another sign within a
    token makes the token unreadable: [extract_number] raises [ValueError],
    and [parse_stats_impact] then returns the default for the whole text.
    So a hyphen or a digit in the label of a token spoils the signed number
    that follows it. *)
Theorem extract_number_sign_inside (a b : string) (c : ascii) :
  c = "+"%char \/ c = "-"%char ->
  Py.filter_chars impact_char a <> EmptyString ->
  extract_number (a +:+ String c b) = Raise ValueError /\
  (forall choice t rest,
      impacts_of choice = Ok ((a +:+ String c b) :: t :: rest) \/
      impacts_of choice = Ok (t :: (a +:+ String c b) :: rest) ->
      parse_stats_impact choice = Ok (0, 0)).
Proof.
  intros Hc Ha.
  pose proof (extract_number_sign_inside_aux a c b Hc Ha) as Hraise.
  split; [exact Hraise|].
  intros choice t rest Htokens.
  unfold parse_stats_impact, parse_stats_impact_body.
  destruct (negb (Py.contains "(" choice) || negb (Py.contains ")" choice));
    [reflexivity|].
  destruct Htokens as [-> | ->];
    cbn [length Nat.ltb Nat.leb Py.index nth_error];
    cbv [mbind result_bind rbind Py.index nth_error]; cbn [length Nat.ltb Nat.leb].
  - now rewrite Hraise.
  - rewrite Hraise. now destruct (extract_number t).
Qed.

Lemma extract_number_sign_inside_witness :
  extract_number "Well-being: +20" = Raise ValueError /\
  parse_stats_impact "Rest (Well-being: +20, Wealth: +5)" = Ok (0, 0).
Proof.
  destruct (extract_number_sign_inside "Well-being: " "20" "+")
    as [Hraise Hparse]; [now left | discriminate |].
  split; [exact Hraise|].
  apply (Hparse _ " Wealth: +5" []). left. reflexivity.
Defined.

(** *** The numbering of a choice line *)

Lemma parse_stats_impact_cons c s :
  c <> "("%char -> c <> ")"%char ->
  parse_stats_impact (String c s) = parse_stats_impact s.
Proof.
  intros Ho Hc. unfold parse_stats_impact, parse_stats_impact_body.
  assert (Hco : Py.contains "(" (String c s) = Py.contains "(" s).
  { cbn [Py.contains]. change "("%string with (char "(").
    rewrite startswith_char. destruct (ascii_dec "(" c); [congruence|reflexivity]. }
  assert (Hcc : Py.contains ")" (String c s) = Py.contains ")" s).
  { cbn [Py.contains]. change ")"%string with (char ")").
    rewrite startswith_char. destruct (ascii_dec ")" c); [congruence|reflexivity]. }
  rewrite Hco, Hcc.
  assert (Himp : impacts_of (String c s) = impacts_of s).
  { unfold impacts_of.
    change (Py.split (String c s) "(")
      with (Ok (Py.split_go (char "(") (String c s) 0)).
    change (Py.split s "(") with (Ok (Py.split_go (char "(") s 0)).
    cbn [Py.split_go]. rewrite startswith_char.
    destruct (ascii_dec "(" c); [congruence|].
    destruct (Py.split_go (char "(") s 0) as [|p ps] eqn:E;
      [now apply split_go_not_nil in E|].
    reflexivity. }
  now rewrite Himp.
Qed.

(** X9. Dropping the numbering from a choice line, as [game_action] does
    with [lstrip("123. ")], never changes the impacts read from it. *)
Theorem parse_stats_impact_lstrip_numbering (line : string) :
  parse_stats_impact (Py.lstrip_chars "123. " line) = parse_stats_impact line.
Proof.
  induction line as [|c line IH]; [reflexivity|].
  cbn [Py.lstrip_chars].
  destruct (Py.contains (String c EmptyString) "123. ") eqn:E; [|reflexivity].
  rewrite IH. symmetry. apply parse_stats_impact_cons; intros ->; discriminate E.
Qed.

(** ** [format_history] *)

Lemma append_assoc (a b c : string) : (a +:+ b) +:+ c = a +:+ (b +:+ c).
Proof.
  induction a as [|x a IH]; [reflexivity|].
  change ((String x a +:+ b) +:+ c) with (String x ((a +:+ b) +:+ c)).
  now rewrite IH.
Qed.

Lemma join_snoc sep l x c :
  Py.join sep ((x :: l) ++ [c]) = Py.join sep (x :: l) +:+ sep +:+ c.
Proof.
  revert x. induction l as [|y l IH]; intros x; [reflexivity|].
  change (Py.join sep ((x :: y :: l) ++ [c]))
    with (x +:+ sep +:+ Py.join sep ((y :: l) ++ [c])).
  change (Py.join sep (x :: y :: l)) with (x +:+ sep +:+ Py.join sep (y :: l)).
  rewrite IH, !append_assoc. reflexivity.
Qed.

(** X10. The history text handed to the model: for an empty history the
    fixed sentence; when a choice has been appended to an empty history,
    the choice itself; when it has been appended to a history that was not
    empty, the former text followed by [" Then "] and the choice. *)
Theorem format_history_appended (st st' : Game) (choice_text : string) :
  player_history st' = (player_history st ++ [choice_text])%list ->
  (player_history st = [] ->
   format_history st = "No previous choices." /\
   format_history st' = choice_text) /\
  (player_history st <> [] ->
   format_history st' = format_history st +:+ " Then " +:+ choice_text).
Proof.
  unfold format_history. intros ->.
  destruct (player_history st) as [|x l].
  - split; [now split | congruence].
  - split; [discriminate|]. intros _.
    rewrite <- join_snoc. reflexivity.
Qed.

Lemma format_history_appended_witness :
  format_history (mkGame ["Sell Winterfell"; "Buy Dragonstone"] 30 100000 2 "g")
  = "Sell Winterfell Then Buy Dragonstone".
Proof.
  destruct (format_history_appended
              (mkGame ["Sell Winterfell"] 30 100000 1 "g")
              (mkGame ["Sell Winterfell"; "Buy Dragonstone"] 30 100000 2 "g")
              "Buy Dragonstone" eq_refl)
    as (_ & H).
  rewrite H; [reflexivity | discriminate].
Defined.

(** ** More on the state codec *)

Lemma getitem_ok (state : gmap string pyval) key v :
  getitem state key = Ok v <-> state !! key = Some v.
Proof.
  unfold getitem. destruct (state !! key); split; congruence.
Qed.

Lemma getitem_raise (state : gmap string pyval) key e :
  getitem state key = Raise e <-> state !! key = None /\ e = KeyError.
Proof.
  unfold getitem. destruct (state !! key); split;
    try congruence; intros H; try (destruct H; congruence).
  now injection H as <-.
Qed.

(** When [load_state] succeeds, and only then, the dictionary holds the five
    fields in their shapes. *)
Lemma load_state_loaded (state : gmap string pyval) (self st : Game) :
  load_state state self = Loaded st <->
  state !! "player_history" = Some (PyList (player_history st)) /\
  state !! "happiness" = Some (PyInt (happiness st)) /\
  state !! "wealth" = Some (PyInt (wealth st)) /\
  state !! "turn_count" = Some (PyInt (turn_count st)) /\
  state !! "game_id" = Some (PyStr (game_id st)).
Proof.
  unfold load_state, getitem. split.
  - destruct (state !! "player_history") as [[| |hist]|]; try discriminate.
    destruct (state !! "happiness") as [[h| |]|]; try discriminate.
    destruct (state !! "wealth") as [[wl| |]|]; try discriminate.
    destruct (state !! "turn_count") as [[t| |]|]; try discriminate.
    destruct (state !! "game_id") as [[|g|]|]; try discriminate.
    cbn. intros [= <-]. cbn. now repeat split.
  - intros (-> & -> & -> & -> & ->). cbn. now destruct st.
Qed.

(** X11. A successful [load_state] takes all five fields from the
    dictionary and nothing from the object it loads into; serialising the
    loaded game gives a dictionary that agrees with the loaded one on the
    five keys; other keys of the dictionary play no part. *)
Theorem load_state_from_dictionary
    (state : gmap string pyval) (self st : Game) :
  load_state state self = Loaded st ->
  (forall other, load_state state other = Loaded st) /\
  (forall key,
      key ∈ ["player_history"; "happiness"; "wealth"; "turn_count"; "game_id"] ->
      get_serializable_state st !! key = state !! key) /\
  (forall key v,
      key ∉ ["player_history"; "happiness"; "wealth"; "turn_count"; "game_id"] ->
      load_state (<[key := v]> state) self = Loaded st).
Proof.
  intros H. apply load_state_loaded in H as (Hp & Hh & Hw & Ht & Hg).
  split; [|split].
  - intros other. apply load_state_loaded. now repeat split.
  - intros key Hkey. unfold get_serializable_state.
    do 5 (apply elem_of_cons in Hkey as [->|Hkey]; [now simplify_map_eq|]).
    now apply elem_of_nil in Hkey.
  - intros key v Hkey. apply load_state_loaded.
    repeat (apply not_elem_of_cons in Hkey as [? Hkey]).
    repeat split; now rewrite lookup_insert_ne.
Qed.

Lemma load_state_from_dictionary_witness :
  load_state (<["csrf" := PyStr "x"]> (get_serializable_state (new_game "g")))
    (mkGame ["old"] 1 2 3 "h")
  = Loaded (new_game "g").
Proof.
  destruct (load_state_from_dictionary (get_serializable_state (new_game "g"))
              (mkGame ["old"] 1 2 3 "h") (new_game "g") eq_refl)
    as (_ & _ & Hextra).
  apply Hextra. intros H.
  do 5 (apply elem_of_cons in H as [H|H]; [discriminate H|]).
  now apply elem_of_nil in H.
Defined.

(** X12. [load_state] fails only with [KeyError], when one of the five keys
    is missing, and it is not atomic: the game id of the object is still
    the old one, but the fields assigned before the missing key have
    already been overwritten; only when the first key, the history, is
    missing is the object untouched. *)
Theorem load_state_missing_key
    (state : gmap string pyval) (self self' : Game) (e : exn) :
  load_state state self = LoadRaised self' e ->
  e = KeyError /\
  (exists key,
      key ∈ ["player_history"; "happiness"; "wealth"; "turn_count"; "game_id"] /\
      state !! key = None) /\
  game_id self' = game_id self /\
  (state !! "player_history" = None -> self' = self) /\
  (forall hist, state !! "player_history" = Some (PyList hist) ->
                player_history self' = hist).
Proof.
  unfold load_state, getitem.
  destruct (state !! "player_history") as [[| |hist]|] eqn:Ep; try discriminate.
  2:{ intros [= <- <-]. split; [reflexivity|]. split.
      { exists "player_history". split; [set_solver | exact Ep]. }
      split; [reflexivity|]. split; [reflexivity | discriminate]. }
  destruct (state !! "happiness") as [[h| |]|] eqn:Eh; try discriminate.
  2:{ intros [= <- <-]. split; [reflexivity|]. split.
      { exists "happiness". split; [set_solver | exact Eh]. }
      split; [reflexivity|]. split; [discriminate | now intros ? [= <-]]. }
  destruct (state !! "wealth") as [[wl| |]|] eqn:Ew; try discriminate.
  2:{ intros [= <- <-]. split; [reflexivity|]. split.
      { exists "wealth". split; [set_solver | exact Ew]. }
      split; [reflexivity|]. split; [discriminate | now intros ? [= <-]]. }
  destruct (state !! "turn_count") as [[t| |]|] eqn:Et; try discriminate.
  2:{ intros [= <- <-]. split; [reflexivity|]. split.
      { exists "turn_count". split; [set_solver | exact Et]. }
      split; [reflexivity|]. split; [discriminate | now intros ? [= <-]]. }
  destruct (state !! "game_id") as [[|g|]|] eqn:Eg; try discriminate.
  intros [= <- <-]. split; [reflexivity|]. split.
  { exists "game_id". split; [set_solver | exact Eg]. }
  split; [reflexivity|]. split; [discriminate | now intros ? [= <-]].
Qed.

Lemma load_state_missing_key_witness :
  player_history
    match load_state (delete "wealth" (get_serializable_state
                                         (mkGame ["Sell Winterfell"] 40 5 2 "g")))
            (new_game "fresh") with
    | LoadRaised self' _ => self'
    | _ => new_game "fresh"
    end
  = ["Sell Winterfell"].
Proof.
  destruct (load_state (delete "wealth" (get_serializable_state
                                           (mkGame ["Sell Winterfell"] 40 5 2 "g")))
              (new_game "fresh")) as [st|self' e|] eqn:E;
    try (vm_compute in E; discriminate E).
  destruct (load_state_missing_key _ _ _ _ E) as (_ & _ & _ & _ & Hhist).
  apply Hhist. reflexivity.
Defined.

(** ** The sliced segment *)

Lemma lstrip_head s c r : Py.lstrip s = String c r -> Py.isspace c = false.
Proof.
  induction s as [|d s IH]; [discriminate|].
  cbn [Py.lstrip]. destruct (Py.isspace d) eqn:E; [exact IH|].
  now intros [= <- _].
Qed.

Lemma rstrip_idem s : Py.rstrip (Py.rstrip s) = Py.rstrip s.
Proof.
  induction s as [|c s IH]; [reflexivity|].
  cbn [Py.rstrip].
  destruct (Py.rstrip s) as [|d r] eqn:E.
  - destruct (Py.isspace c) eqn:Ec; [reflexivity|].
    cbn [Py.rstrip]. now rewrite Ec.
  - cbn [Py.rstrip]. cbn [Py.rstrip] in IH.
    destruct (Py.rstrip r) as [|d' r'].
    + destruct (Py.isspace d); [discriminate IH|]. now rewrite IH.
    + now rewrite IH.
Qed.

Lemma strip_idem s : Py.strip (Py.strip s) = Py.strip s.
Proof.
  unfold Py.strip.
  destruct (Py.lstrip s) as [|c x] eqn:E; [reflexivity|].
  pose proof (lstrip_head _ _ _ E) as Hc.
  assert (Hr : exists y, Py.rstrip (String c x) = String c y).
  { cbn [Py.rstrip]. rewrite Hc. destruct (Py.rstrip x); eauto. }
  destruct Hr as [y Hy].
  rewrite Hy. cbn [Py.lstrip]. rewrite Hc, <- Hy. apply rstrip_idem.
Qed.

Lemma Forall_firstn {A} (P : A -> Prop) n l : Forall P l -> Forall P (firstn n l).
Proof.
  revert l. induction n as [|n IH]; intros l H; [constructor|].
  destruct H; cbn [firstn]; constructor; auto.
Qed.

Lemma length_firstn_le {A} n (l : list A) : (length (firstn n l) <= n)%nat.
Proof.
  revert l. induction n as [|n IH]; intros [|x l]; cbn; try lia.
  specialize (IH l). lia.
Qed.

(** X13. What [game_action] shows of a segment: with [block] the text
    after the first [CHOICES:] marker and its newline (up to the next such
    marker) and [lines] its lines, the choices shown are the lines of
    [block] that are not blank, stripped, in their order, cut after the
    third.  So at most three are shown, none of them empty and each, like
    the story, free of surrounding whitespace, and fewer than three are
    shown when the block has fewer lines that are not blank. *)
Theorem segment_choices_shape (segment : string) :
  (forall choices, segment_choices segment = Ok choices ->
     (length choices <= 3)%nat /\
     Forall (fun c => c <> EmptyString /\ Py.strip c = c) choices /\
     exists p block lines,
       Py.split segment ("CHOICES:" +:+ newline) = Ok p /\
       Py.index p 1 = Ok block /\
       Py.split block newline = Ok lines /\
       choices = firstn 3 (map Py.strip
                   (List.filter (fun c => Py.truthy (Py.strip c)) lines)) /\
       ((length (List.filter (fun c => Py.truthy (Py.strip c)) lines) < 3)%nat ->
        length choices
        = length (List.filter (fun c => Py.truthy (Py.strip c)) lines))) /\
  (forall story, segment_story segment = Ok story -> Py.strip story = story).
Proof.
  split.
  - intros choices. unfold segment_choices.
    cbv [mbind result_bind rbind mret result_ret].
    destruct (Py.split segment ("CHOICES:" +:+ newline)) as [p|] eqn:Ep;
      [|discriminate].
    destruct (Py.index p 1) as [block|] eqn:Eblock; [|discriminate].
    destruct (Py.split block newline) as [lines|] eqn:Elines; [|discriminate].
    intros [= <-]. split; [apply length_firstn_le|]. split.
    + apply Forall_firstn. clear Elines.
      induction lines as [|l lines IH]; [constructor|].
      cbn [List.filter]. destruct (Py.truthy (Py.strip l)) eqn:E; [|exact IH].
      cbn [map]. constructor; [|exact IH].
      split; [|apply strip_idem].
      intros Hempty. rewrite Hempty in E. discriminate E.
    + exists p, block, lines. split; [reflexivity|]. split; [exact Eblock|].
      split; [exact Elines|]. split; [reflexivity|].
      intros Hfew. rewrite firstn_all2; [now rewrite length_map|].
      rewrite length_map. lia.
  - intros story. unfold segment_story.
    cbv [mbind result_bind rbind mret result_ret].
    destruct (Py.split segment "STORY:") as [p|]; [|discriminate].
    destruct (Py.index p 1) as [a|]; [|discriminate].
    destruct (Py.split a "CHOICES:") as [q|]; [|discriminate].
    destruct (Py.index q 0) as [b|]; [|discriminate].
    intros [= <-]. apply strip_idem.
Qed.

Lemma segment_choices_shape_witness :
  exists p block,
    Py.split sample_segment ("CHOICES:" +:+ newline) = Ok p /\
    Py.index p 1 = Ok block /\
    Py.split block newline
    = Ok [ "1. A (Happiness: +1, Wealth: +2)";
           "2. B (Happiness: +3, Wealth: -4)";
           "3. C (Happiness: -5, Wealth: +6)" ].
Proof.
  destruct (segment_choices_shape sample_segment) as [H _].
  destruct (H _ eq_refl) as (_ & _ & p & block & lines & Hp & Hblock & Hlines & _).
  exists p, block. split; [exact Hp|]. split; [exact Hblock|].
  rewrite Hlines. vm_compute in Hp. injection Hp as <-.
  vm_compute in Hblock. injection Hblock as <-.
  vm_compute in Hlines. injection Hlines as <-. reflexivity.
Defined.

(** * The route [game_action] *)

Ltac unfold_route :=
  cbv [game_action new_game_action choice_action start_game
       mbind SessionM_bind mret SessionM_ret lift_session
       session_game_state session_current_segment
       set_session_game_state set_session_current_segment call
       session_of game_state current_segment].

Lemma game_action_parsed (h : Host) (choice : req_choice) (s : Session) :
  game_action h (Parsed choice) s
  = match (if choice_falsy choice || negb (bool_decide (is_Some (game_state s)))
           then new_game_action h
           else if negb (choice_listed choice) then mret InvalidChoice
                else match choice with
                     | Text c => choice_action h c
                     | _ => mret InvalidChoice
                     end) s with
    | (s', Ok r) => (s', r)
    | (s', Raise e) => (s', ServerError e)
    end.
Proof. reflexivity. Qed.

Lemma make_choice_returns (w : World) (choice_text : string) (st : Game) :
  exists st' consequence next,
    make_choice w choice_text st = (st', Ok (consequence, next)).
Proof.
  destruct (empty_choice choice_text) eqn:Hempty.
  { destruct (make_choice_stopped_early w choice_text st) as (next & _ & H);
      [now left | eauto]. }
  destruct (db_insert w choice_text (game_id st)) as [[]|e] eqn:Hins.
  2:{ destruct (make_choice_stopped_early w choice_text st) as (next & _ & H);
        [right; now exists e | eauto]. }
  destruct (parse_stats_impact_total choice_text) as (dh & dw & Hparse).
  destruct (consequence_chain w (format_history (impacted dh dw st)) choice_text
              (happiness (impacted dh dw st)) (wealth (impacted dh dw st)))
    as [consequence|e] eqn:Hcons.
  - destruct (make_choice_consequence_returned w choice_text st dh dw consequence)
      as (next & _ & H); eauto.
  - destruct (make_choice_consequence_raised w choice_text st dh dw e)
      as (next & _ & H); eauto.
Qed.

Lemma load_state_serialized (st self : Game) :
  load_state (get_serializable_state st) self = Loaded st.
Proof.
  apply load_state_loaded. unfold get_serializable_state.
  repeat split; now simplify_map_eq.
Qed.

Lemma init_fresh (h : Host) (g : Game) :
  init h = Ok g -> g = new_game (fresh_id h).
Proof.
  unfold init. destruct (api_key h) as [key|]; [|discriminate].
  destruct (negb (Py.truthy key)); [discriminate|].
  cbv [mbind result_bind rbind].
  destruct (llm_init h); [|discriminate].
  destruct (db_setup h); [|discriminate].
  now intros [= <-].
Qed.

(** The view a success response gives of a game and a sliced segment. *)
Lemma choice_action_run (h : Host) (c : string) (st g0 : Game)
    (segment block line : string) (p lines : list string) (n : Z) :
  init h = Ok g0 ->
  Py.split segment ("CHOICES:" +:+ newline) = Ok p ->
  Py.index p 1 = Ok block ->
  Py.split block newline = Ok lines ->
  Py.int c = Ok n ->
  Py.index lines (Z.to_nat (n - 1)) = Ok line ->
  exists st' consequence next,
    make_choice (world h) (Py.lstrip_chars "123. " line) st
    = (st', Ok (consequence, next)) /\
    choice_action h c (session_of st segment)
    = (session_of st' next,
       match parse_segment next with
       | Ok (story, choices) =>
           Ok (Success
                 {| turn := turn_count st' + 1;
                    view_happiness := happiness st';
                    view_wealth := wealth st';
                    view_consequence := Some consequence;
                    view_story := story;
                    view_choices := choices;
                    is_game_over := Some (fst (check_game_over st'));
                    game_over_message :=
                      if fst (check_game_over st')
                      then Some (snd (check_game_over st')) else None |})
       | Raise e => Raise e
       end).
Proof.
  intros Hinit Hp Hblock Hlines Hn Hline.
  destruct (make_choice_returns (world h) (Py.lstrip_chars "123. " line) st)
    as (st' & consequence & next & Hturn).
  exists st', consequence, next. split; [exact Hturn|].
  unfold_route.
  rewrite Hinit, load_state_serialized, Hp, Hblock, Hlines, Hn, Hline, Hturn.
  destruct (check_game_over st') as [over message].
  unfold parse_segment. cbv [mbind result_bind rbind mret result_ret].
  destruct (segment_story next) as [story|e]; [|reflexivity].
  destruct (segment_choices next) as [choices|e]; reflexivity.
Qed.

(** X14. With a game in the session, a choice that is not empty and is not
    one of ["1"], ["2"], ["3"] is answered with "Invalid choice" (status
    400); the session is left as it was and no game object is built, so
    this holds on any host. *)
Theorem game_action_invalid_choice (h : Host) (choice : req_choice) (s : Session) :
  choice_falsy choice = false ->
  choice_listed choice = false ->
  is_Some (game_state s) ->
  game_action h (Parsed choice) s = (s, InvalidChoice).
Proof.
  intros Hfalsy Hlisted Hstate. rewrite game_action_parsed.
  rewrite Hfalsy, Hlisted, (bool_decide_eq_true_2 _ Hstate). reflexivity.
Qed.

Lemma game_action_invalid_choice_witness :
  game_action host_up (Parsed (Text "4")) (session_of (new_game "g") sample_segment)
  = (session_of (new_game "g") sample_segment, InvalidChoice).
Proof.
  apply (game_action_invalid_choice host_up (Text "4"));
    [reflexivity | reflexivity | now eexists].
Defined.

(** X15. A request whose body cannot be read (lines 253-254 raise) starts
    no game: the answer is a status 500 and the session is untouched.  A
    request that was read and carries no choice, or any request that was
    read when the session holds no game (as after [reset_game]), starts a
    new game; a game already in the session is replaced.  If the
    constructor raises, for instance for want of the API key, the answer is
    a status 500 and the session is untouched.  Otherwise the session gets
    the fresh game (happiness 30, wealth 100000, no turns, no history) and
    the segment [start_game] returned, and this before the segment is
    sliced: if it cannot be sliced the answer is a status 500 all the same;
    if it can, the answer shows turn 1 and the initial stats. *)
Theorem game_action_new_game (h : Host) (choice : req_choice) (s : Session) :
  choice_falsy choice = true \/ game_state s = None ->
  (forall e, game_action h (Unreadable e) s = (s, ServerError e)) /\
  (api_key h = None -> init h = Raise ValueError) /\
  (forall e, init h = Raise e ->
     game_action h (Parsed choice) s = (s, ServerError e)) /\
  (forall g, init h = Ok g ->
     exists segment,
       start_game (world h) (new_game (fresh_id h))
       = (new_game (fresh_id h), Ok segment) /\
       fst (game_action h (Parsed choice) s)
       = session_of (new_game (fresh_id h)) segment /\
       snd (game_action h (Parsed choice) s)
       = match parse_segment segment with
         | Ok (story, choices) =>
             Success {| turn := 1; view_happiness := 30; view_wealth := 100000;
                        view_consequence := None; view_story := story;
                        view_choices := choices; is_game_over := None;
                        game_over_message := None |}
         | Raise e => ServerError e
         end) /\
  game_state (reset_game s) = None.
Proof.
  intros Hnew.
  assert (Hpath : choice_falsy choice
                  || negb (bool_decide (is_Some (game_state s))) = true).
  { destruct Hnew as [-> | ->]; [reflexivity|].
    rewrite bool_decide_eq_false_2; [apply orb_true_r|]. now intros [? ?]. }
  split; [reflexivity|].
  split; [|split; [|split; [|reflexivity]]].
  - intros Hkey. unfold init. now rewrite Hkey.
  - intros e He. rewrite game_action_parsed. rewrite Hpath.
    unfold_route. now rewrite He.
  - intros g Hg. pose proof (init_fresh h g Hg) as ->.
    unfold start_game. rewrite get_story_segment_run.
    eexists. split; [reflexivity|].
    rewrite game_action_parsed. rewrite Hpath. unfold_route.
    rewrite Hg, get_story_segment_run.
    unfold parse_segment. cbv [mbind result_bind rbind mret result_ret].
    destruct (segment_story _) as [story|e]; [|now split].
    destruct (segment_choices _) as [choices|e]; now split.
Qed.

Lemma game_action_new_game_witness :
  fst (game_action host_up (Parsed (Text "2"))
         (reset_game (session_of (mkGame ["x"] 1 2 3 "old") "stale")))
  = session_of (new_game "0f") sample_segment.
Proof.
  destruct (game_action_new_game host_up (Text "2")
              (reset_game (session_of (mkGame ["x"] 1 2 3 "old") "stale")))
    as (_ & _ & _ & Hok & _); [now right|].
  destruct (Hok (new_game "0f") eq_refl) as (segment & Hstart & Hsession & _).
  rewrite Hsession. injection Hstart as <-. reflexivity.
Defined.

Lemma choices_marker_absent segment :
  Py.contains "CHOICES:" segment = false ->
  Py.split segment ("CHOICES:" +:+ newline) = Ok [segment].
Proof.
  intros H. apply split_absent; [discriminate|].
  destruct (Py.contains ("CHOICES:" +:+ newline) segment) eqn:E; [|reflexivity].
  apply contains_app_l in E. congruence.
Qed.

(** X16. A session whose segment has no [CHOICES:] marker (such as the
    fixed error text that [get_story_segment] returns when the story call
    fails) is stuck: every request that carries a choice leaves the session
    exactly as it is and is answered with an error, a status 500 with
    [IndexError] for the choices 1, 2, 3 on a host whose constructor works.
    Only a request without a choice, which starts a new game, gets out. *)
Theorem game_action_stuck
    (h : Host) (choice : req_choice) (st : Game) (segment : string) :
  Py.contains "CHOICES:" segment = false ->
  choice_falsy choice = false ->
  fst (game_action h (Parsed choice) (session_of st segment)) = session_of st segment /\
  (snd (game_action h (Parsed choice) (session_of st segment)) = InvalidChoice \/
   exists e, snd (game_action h (Parsed choice) (session_of st segment)) = ServerError e) /\
  (choice_listed choice = true -> forall g, init h = Ok g ->
   snd (game_action h (Parsed choice) (session_of st segment)) = ServerError IndexError).
Proof.
  intros Hmarker Hfalsy. rewrite game_action_parsed. rewrite Hfalsy.
  cbn [session_of game_state]. rewrite bool_decide_eq_true_2 by now eexists.
  cbn [negb orb].
  destruct (choice_listed choice) eqn:Hlisted; cbn [negb].
  2:{ split; [reflexivity|]. split; [now left | discriminate]. }
  destruct choice as [|c|]; try discriminate Hlisted.
  unfold_route.
  destruct (init h) as [g0|e0] eqn:Hinit.
  - rewrite load_state_serialized, (choices_marker_absent _ Hmarker).
    cbn [Py.index nth_error].
    split; [reflexivity|]. split; [right; now exists IndexError | reflexivity].
  - split; [reflexivity|]. split; [right; now exists e0 | discriminate].
Qed.

Lemma game_action_stuck_witness :
  game_action host_up (Parsed (Text "1")) (session_of (new_game "g") error_segment)
  = (session_of (new_game "g") error_segment, ServerError IndexError).
Proof.
  destruct (game_action_stuck host_up (Text "1") (new_game "g") error_segment
              eq_refl eq_refl) as (Hs & _ & He).
  specialize (He eq_refl (new_game "0f") eq_refl).
  destruct (game_action host_up (Parsed (Text "1")) (session_of (new_game "g") error_segment))
    as [s r].
  cbn [fst snd] in *. now subst.
Defined.

(** X17. A turn through the route.  With a game in the session, a choice
    among 1, 2, 3 and a stored segment that has the chosen line, the text
    submitted to [make_choice] is that raw line without its numbering; the
    session then holds the game after the turn, one turn further, and the
    new segment, and this whether or not the stored game was already over
    and whether or not the new segment can be sliced.  If it cannot, the
    answer is a status 500 although the turn is spent; if it can, the answer
    shows the stats now stored, the verdict of [check_game_over] on them,
    and a message exactly when the game is over. *)
Theorem game_action_turn
    (h : Host) (c : string) (st g0 : Game)
    (segment block line : string) (p lines : list string) (n : Z) :
  c ∈ ["1"; "2"; "3"] ->
  init h = Ok g0 ->
  Py.split segment ("CHOICES:" +:+ newline) = Ok p ->
  Py.index p 1 = Ok block ->
  Py.split block newline = Ok lines ->
  Py.int c = Ok n ->
  Py.index lines (Z.to_nat (n - 1)) = Ok line ->
  exists st' consequence next,
    make_choice (world h) (Py.lstrip_chars "123. " line) st
    = (st', Ok (consequence, next)) /\
    fst (game_action h (Parsed (Text c)) (session_of st segment)) = session_of st' next /\
    turn_count st' = turn_count st + 1 /\
    (forall e, parse_segment next = Raise e ->
       snd (game_action h (Parsed (Text c)) (session_of st segment)) = ServerError e) /\
    (forall story choices, parse_segment next = Ok (story, choices) ->
       exists v,
         snd (game_action h (Parsed (Text c)) (session_of st segment)) = Success v /\
         turn v = turn_count st + 2 /\
         view_happiness v = happiness st' /\
         view_wealth v = wealth st' /\
         view_consequence v = Some consequence /\
         view_story v = story /\
         view_choices v = choices /\
         is_game_over v = Some (fst (check_game_over st')) /\
         (game_over_message v = None <-> fst (check_game_over st') = false)).
Proof.
  intros Hc Hinit Hp Hblock Hlines Hn Hline.
  destruct (choice_action_run h c st g0 segment block line p lines n
              Hinit Hp Hblock Hlines Hn Hline)
    as (st' & consequence & next & Hturn & Hrun).
  exists st', consequence, next. split; [exact Hturn|].
  assert (Hcount : turn_count st' = turn_count st + 1).
  { pose proof (make_choice_turn_count (world h)
                  (Py.lstrip_chars "123. " line) st) as H.
    now rewrite Hturn in H. }
  assert (Hroute : game_action h (Parsed (Text c)) (session_of st segment)
                   = match choice_action h c (session_of st segment) with
                     | (s', Ok r) => (s', r)
                     | (s', Raise e) => (s', ServerError e)
                     end).
  { rewrite game_action_parsed. cbn [choice_falsy choice_listed session_of game_state].
    assert (Hne : Py.truthy c = true).
    { do 3 (apply elem_of_cons in Hc as [->|Hc]; [reflexivity|]).
      now apply elem_of_nil in Hc. }
    rewrite Hne, (bool_decide_eq_true_2 _ Hc).
    rewrite bool_decide_eq_true_2 by now eexists. reflexivity. }
  rewrite Hroute, Hrun.
  split; [|split; [exact Hcount|split]].
  - now destruct (parse_segment next) as [[story choices]|e].
  - intros e ->. reflexivity.
  - intros story choices ->. eexists. split; [reflexivity|]. cbn.
    repeat split; try lia.
    + now destruct (fst (check_game_over st')).
    + now intros ->.
Qed.

Lemma game_action_turn_witness :
  exists st',
    fst (game_action host_story_down (Parsed (Text "2"))
           (session_of (new_game "g") sample_segment))
    = session_of st' error_segment /\
    turn_count st' = 1.
Proof.
  destruct (game_action_turn host_story_down "2" (new_game "g") (new_game "0f")
              sample_segment
              ("1. A (Happiness: +1, Wealth: +2)" +:+ newline
               +:+ "2. B (Happiness: +3, Wealth: -4)" +:+ newline
               +:+ "3. C (Happiness: -5, Wealth: +6)")
              "2. B (Happiness: +3, Wealth: -4)"
              ["STORY: Foo." +:+ newline;
               "1. A (Happiness: +1, Wealth: +2)" +:+ newline
               +:+ "2. B (Happiness: +3, Wealth: -4)" +:+ newline
               +:+ "3. C (Happiness: -5, Wealth: +6)"]
              ["1. A (Happiness: +1, Wealth: +2)";
               "2. B (Happiness: +3, Wealth: -4)";
               "3. C (Happiness: -5, Wealth: +6)"]
              2)
    as (st' & consequence & next & Hturn & Hsession & Hcount & _);
    [set_solver | reflexivity ..|].
  exists st'. split; [|exact Hcount].
  rewrite Hsession. vm_compute in Hturn. now injection Hturn as _ _ <-.
Defined.

(** X18. The sessions the route writes are the ones it can read.  Starting
    from a session without a game, or from one that holds the dictionary of
    some game beside a segment, any request, on any host, leaves the
    session either as it was or holding the dictionary of a game beside a
    segment; and [load_state] never meets a value of the wrong shape
    there. *)
Theorem game_action_session_invariant
    (h : Host) (req : request) (s : Session) :
  game_state s = None \/ (exists st segment, s = session_of st segment) ->
  (fst (game_action h req s) = s \/
   exists st' segment', fst (game_action h req s) = session_of st' segment') /\
  snd (game_action h req s) <> OutsideModel.
Proof.
  intros Hs. destruct req as [choice|e0]; [|split; [now left | discriminate]].
  rewrite game_action_parsed.
  destruct (choice_falsy choice || negb (bool_decide (is_Some (game_state s))))
    eqn:Hpath.
  { unfold_route. destruct (init h) as [g|e]; [|split; [now left | discriminate]].
    rewrite get_story_segment_run.
    destruct (segment_story _) as [story|e];
      [|split; [right; now eexists _, _ | discriminate]].
    destruct (segment_choices _) as [choices|e];
      (split; [right; now eexists _, _ | discriminate]). }
  apply orb_false_iff in Hpath as [_ Hstate].
  apply negb_false_iff, bool_decide_eq_true_1 in Hstate.
  destruct Hs as [Hnone|(st & segment & ->)];
    [rewrite Hnone in Hstate; now destruct Hstate|].
  destruct (choice_listed choice) eqn:Hlisted; cbn [negb];
    [|split; [now left | discriminate]].
  destruct choice as [|c|]; try discriminate Hlisted.
  unfold_route.
  destruct (init h) as [g0|e]; [|split; [now left | discriminate]].
  rewrite load_state_serialized.
  destruct (Py.split segment ("CHOICES:" +:+ newline)) as [p|e];
    [|split; [now left | discriminate]].
  destruct (Py.index p 1) as [block|e]; [|split; [now left | discriminate]].
  destruct (Py.split block newline) as [lines|e];
    [|split; [now left | discriminate]].
  destruct (Py.int c) as [n|e]; [|split; [now left | discriminate]].
  destruct (Py.index lines (Z.to_nat (n - 1))) as [line|e];
    [|split; [now left | discriminate]].
  destruct (make_choice_returns (world h) (Py.lstrip_chars "123. " line) st)
    as (st' & consequence & next & ->).
  destruct (check_game_over st') as [over message].
  destruct (segment_story next) as [story|e];
    [|split; [right; now eexists _, _ | discriminate]].
  destruct (segment_choices next) as [choices|e];
    (split; [right; now eexists _, _ | discriminate]).
Qed.

Lemma game_action_session_invariant_witness :
  snd (game_action host_up (Parsed (Text "3")) (session_of (new_game "g") sample_segment))
  <> OutsideModel.
Proof.
  apply (game_action_session_invariant host_up (Parsed (Text "3"))
           (session_of (new_game "g") sample_segment)).
  right. now eexists _, _.
Defined.

(** X19. The line acted on is the raw line of the stored segment, blank
    lines included, not the line of the list that was shown.  When the
    chosen raw line is empty or holds only numbering characters, the empty
    text is submitted: the session then holds the same game with the same
    stats and history and one turn more. *)
Theorem game_action_blank_line
    (h : Host) (c : string) (st g0 : Game)
    (segment block line : string) (p lines : list string) (n : Z) :
  c ∈ ["1"; "2"; "3"] ->
  init h = Ok g0 ->
  Py.split segment ("CHOICES:" +:+ newline) = Ok p ->
  Py.index p 1 = Ok block ->
  Py.split block newline = Ok lines ->
  Py.int c = Ok n ->
  Py.index lines (Z.to_nat (n - 1)) = Ok line ->
  Py.lstrip_chars "123. " line = EmptyString ->
  exists next,
    fst (game_action h (Parsed (Text c)) (session_of st segment))
    = session_of (mkGame (player_history st) (happiness st) (wealth st)
                         (turn_count st + 1) (game_id st)) next.
Proof.
  intros Hc Hinit Hp Hblock Hlines Hn Hline Hblank.
  destruct (choice_action_run h c st g0 segment block line p lines n
              Hinit Hp Hblock Hlines Hn Hline)
    as (st' & consequence & next & Hturn & Hrun).
  rewrite Hblank in Hturn.
  destruct (make_choice_stopped_early (world h) EmptyString st)
    as (next' & _ & Hstop); [now left|].
  rewrite Hstop in Hturn. injection Hturn as <- _ <-.
  exists next'.
  rewrite game_action_parsed. cbn [choice_falsy choice_listed session_of game_state].
  assert (Hne : Py.truthy c = true).
  { do 3 (apply elem_of_cons in Hc as [->|Hc]; [reflexivity|]).
    now apply elem_of_nil in Hc. }
  rewrite Hne, (bool_decide_eq_true_2 _ Hc).
  rewrite bool_decide_eq_true_2 by now eexists.
  cbn [negb orb]. fold (session_of st segment). rewrite Hrun.
  now destruct (parse_segment next') as [[story choices]|e].
Qed.

Lemma game_action_blank_line_witness :
  exists next,
    fst (game_action host_up (Parsed (Text "1"))
           (session_of (new_game "g")
              ("STORY: Foo." +:+ newline +:+ "CHOICES:" +:+ newline +:+ newline
               +:+ "1. A (Happiness: +1, Wealth: +2)")))
    = session_of (mkGame [] 30 100000 1 "g") next.
Proof.
  apply (game_action_blank_line host_up "1" (new_game "g") (new_game "0f")
           ("STORY: Foo." +:+ newline +:+ "CHOICES:" +:+ newline +:+ newline
            +:+ "1. A (Happiness: +1, Wealth: +2)")
           (newline +:+ "1. A (Happiness: +1, Wealth: +2)")
           ""
           ["STORY: Foo." +:+ newline;
            newline +:+ "1. A (Happiness: +1, Wealth: +2)"]
           [""; "1. A (Happiness: +1, Wealth: +2)"]
           1); [set_solver | reflexivity ..].
Defined.

(** * A segment without its markers, and what the route makes of it *)

Lemma new_game_action_run (h : Host) (s : Session) (g : Game) (segment : string) :
  init h = Ok g ->
  start_game (world h) g = (g, Ok segment) ->
  new_game_action h s
  = (session_of g segment,
     match parse_segment segment with
     | Ok (story, choices) =>
         Ok (Success {| turn := turn_count g + 1;
                        view_happiness := happiness g;
                        view_wealth := wealth g;
                        view_consequence := None;
                        view_story := story;
                        view_choices := choices;
                        is_game_over := None;
                        game_over_message := None |})
     | Raise e => Raise e
     end).
Proof.
  intros Hinit Hstart. unfold start_game in Hstart. unfold_route.
  rewrite Hinit, Hstart.
  unfold parse_segment. cbv [mbind result_bind rbind mret result_ret].
  destruct (segment_story segment) as [story|e]; [|reflexivity].
  destruct (segment_choices segment) as [choices|e]; reflexivity.
Qed.

(** C5, amended.  A segment in which the marker [STORY:] or the marker
    [CHOICES:] does not occur cannot be sliced: the slicing raises, with the
    [IndexError] of the list indexing and not with an error of its own, and
    returns no story or choice text.  The caller substitutes nothing for
    such a segment.  In both places where [game_action] slices, the new
    game and the turn, the segment is first stored in the session and the
    [IndexError] then reaches the catch-all handler, which answers with a
    status 500. *)
Theorem parse_segment_missing_marker (segment : string) :
  Py.contains "STORY:" segment = false \/ Py.contains "CHOICES:" segment = false ->
  parse_segment segment = Raise IndexError /\
  (forall h choice s g,
      choice_falsy choice = true \/ game_state s = None ->
      init h = Ok g ->
      start_game (world h) g = (g, Ok segment) ->
      game_action h (Parsed choice) s
      = (session_of g segment, ServerError IndexError)) /\
  (forall h c st g0 stored block line p lines n st' consequence,
      c ∈ ["1"; "2"; "3"] ->
      init h = Ok g0 ->
      Py.split stored ("CHOICES:" +:+ newline) = Ok p ->
      Py.index p 1 = Ok block ->
      Py.split block newline = Ok lines ->
      Py.int c = Ok n ->
      Py.index lines (Z.to_nat (n - 1)) = Ok line ->
      make_choice (world h) (Py.lstrip_chars "123. " line) st
      = (st', Ok (consequence, segment)) ->
      game_action h (Parsed (Text c)) (session_of st stored)
      = (session_of st' segment, ServerError IndexError)).
Proof.
  intros Hmarker.
  assert (Hparse : parse_segment segment = Raise IndexError)
    by now apply parse_segment_marker_absent.
  split; [exact Hparse|]. split.
  - intros h choice s g Hnew Hinit Hstart.
    rewrite game_action_parsed.
    assert (Hpath : choice_falsy choice
                    || negb (bool_decide (is_Some (game_state s))) = true).
    { destruct Hnew as [-> | ->]; [reflexivity|].
      rewrite bool_decide_eq_false_2; [apply orb_true_r|]. now intros [? ?]. }
    rewrite Hpath, (new_game_action_run h s g segment Hinit Hstart), Hparse.
    reflexivity.
  - intros h c st g0 stored block line p lines n st' consequence
      Hc Hinit Hp Hblock Hlines Hn Hline Hturn.
    destruct (choice_action_run h c st g0 stored block line p lines n
                Hinit Hp Hblock Hlines Hn Hline)
      as (st'' & consequence' & next & Hturn' & Hrun).
    rewrite Hturn in Hturn'. injection Hturn' as <- <- <-.
    rewrite game_action_parsed.
    cbn [choice_falsy choice_listed session_of game_state].
    assert (Hne : Py.truthy c = true).
    { do 3 (apply elem_of_cons in Hc as [->|Hc]; [reflexivity|]).
      now apply elem_of_nil in Hc. }
    rewrite Hne, (bool_decide_eq_true_2 _ Hc).
    rewrite bool_decide_eq_true_2 by now eexists.
    cbn [negb orb]. fold (session_of st stored). rewrite Hrun, Hparse.
    reflexivity.
Qed.

Lemma parse_segment_missing_marker_witness :
  parse_segment error_segment = Raise IndexError /\
  game_action host_story_down (Parsed Absent) (mkSession None None)
  = (session_of (new_game "0f") error_segment, ServerError IndexError).
Proof.
  destruct (parse_segment_missing_marker error_segment (or_introl eq_refl))
    as (Hparse & Hnew & _).
  split; [exact Hparse|].
  apply (Hnew host_story_down Absent (mkSession None None) (new_game "0f"));
    [now left | reflexivity | reflexivity].
Defined.

(** C5 as stated fails.  When the story call is down, the segment the new
    game gets has neither marker; the caller shows no fallback segment in
    its place but answers with the error of the catch-all handler.  And the
    [IndexError] is no error of the markers' own: a segment that has both
    markers, but no newline after [CHOICES:], raises it just the same. *)
Lemma parse_segment_no_fallback :
  ~ (forall h choice s g segment,
        choice_falsy choice = true \/ game_state s = None ->
        init h = Ok g ->
        start_game (world h) g = (g, Ok segment) ->
        Py.contains "STORY:" segment = false \/
        Py.contains "CHOICES:" segment = false ->
        exists v, snd (game_action h (Parsed choice) s) = Success v) /\
  (Py.contains "STORY:" "STORY: Foo. CHOICES: 1. A" = true /\
   Py.contains "CHOICES:" "STORY: Foo. CHOICES: 1. A" = true /\
   parse_segment "STORY: Foo. CHOICES: 1. A" = Raise IndexError).
Proof.
  split; [|repeat split].
  intros H.
  destruct (H host_story_down Absent (mkSession None None) (new_game "0f")
              error_segment (or_introl eq_refl) eq_refl eq_refl
              (or_introl eq_refl)) as [v Hv].
  discriminate Hv.
Qed.
